(** * Emulator interface: the linear predictor of [app.py]

    A shallow embedding of the simulation part of [app.py] (the code run
    when "Run Simulation" is pressed) and the properties of its prediction
    engine.

    Numbers are IEEE 754 binary64 values, as Python's [float] and NumPy's
    [float64] are: Rocq's primitive [float] with round-to-nearest-even
    arithmetic.  A coefficient column ([beta], a pandas [Series] indexed
    by row name) is a finite map from row names to floats; the integer
    default [0] of [beta.get(name, 0)] enters float arithmetic as [0.0].
    Row names are unique, and a column holds floats (pandas reads a
    column of whole numbers as integers; below 2^53 the two agree). *)

From Stdlib Require Import ZArith Floats Ascii.
From stdpp Require Import base option list gmap strings pretty.

Set Warnings "-inexact-float".

Local Open Scope Z_scope.

(** ** Data model *)

(** A pandas [Series] of floats indexed by strings (one column of a
    coefficient table). *)
Abbreviation Series := (gmap string float).

(** A [DataFrame] read by [load_cleaned_data]: column name to column. *)
Abbreviation DataFrame := (gmap string (gmap string float)).

(** [Series.get(name, default)]: the value at label [name], [default]
    when the label is absent.  It never raises. *)
Definition Series_get (s : gmap string float) (name : string) (default_ : float) : float :=
  match s !! name with
  | Some v => v
  | None => default_
  end.

(** The f-strings that build the row names of a year offset. *)
Definition fkey_year (year_inc : Z) : string :=
  pretty year_inc +:+ ".year_inc".
Definition fkey_year_iv1 (year_inc : Z) : string :=
  pretty year_inc +:+ ".year_inc#c.ivparm1".
Definition fkey_year_iv2 (year_inc : Z) : string :=
  pretty year_inc +:+ ".year_inc#c.ivparm2".
Definition fkey_year_iv1_iv2 (year_inc : Z) : string :=
  pretty year_inc +:+ ".year_inc#c.ivparm1#c.ivparm2".

(** ** The per-year loop body, with the script's variables as state

    The variables assigned inside the loop over [year_range] live on
    after each iteration (Python has no block scope), so the body is a
    state transformer on them.  A variable the taken branch does not
    assign keeps the value of an earlier iteration. *)
Record Locals := mkLocals {
  year_inc : Z;
  b_cons : float;
  b_year : float;
  base_val : float;
  inter_val : float;
  L1 : float;
  L2 : float;
  b_iv1 : float;
  b_year_iv1 : float;
  b_iv2 : float;
  b_year_iv2 : float;
  b_iv1_iv2 : float;
  b_year_iv1_iv2 : float;
  baseline_values : list float;
  intervention_values : list float
}.

(** Lines 130-189 of [app.py].  [None] is the [KeyError] of a subscript
    on [intervention_levels].  The assignments [base_val = 0] and
    [inter_val = 0] of lines 138-139 are overwritten in both branches
    before anything reads them. *)
Definition year_body (key : string) (intervention_levels beta : gmap string float)
    (fr : Locals) (year : Z) : option Locals :=
  let year_inc' := year - 2024 in
  let b_cons' := Series_get beta "_cons" 0 in
  let b_year' := Series_get beta (fkey_year year_inc') 0 in
  if decide (key = "pcogstate") then
    L1' ← intervention_levels !! "pcogstate_1";
    L2' ← intervention_levels !! "pcogstate_2";
    let b_iv1' := Series_get beta "ivparm1" 0 in
    let b_year_iv1' := Series_get beta (fkey_year_iv1 year_inc') 0 in
    let b_iv2' := Series_get beta "ivparm2" 0 in
    let b_year_iv2' := Series_get beta (fkey_year_iv2 year_inc') 0 in
    let b_iv1_iv2' := Series_get beta "c.ivparm1#c.ivparm2" 0 in
    let b_year_iv1_iv2' := Series_get beta (fkey_year_iv1_iv2 year_inc') 0 in
    let base_val' :=
      (b_cons' + b_year' +
       b_iv1' * 1.0 + b_year_iv1' * 1.0 +
       b_iv2' * 1.0 + b_year_iv2' * 1.0 +
       b_iv1_iv2' * 1.0 * 1.0 + b_year_iv1_iv2' * 1.0 * 1.0)%float in
    let inter_val' :=
      (b_cons' + b_year' +
       b_iv1' * L1' + b_year_iv1' * L1' +
       b_iv2' * L2' + b_year_iv2' * L2' +
       b_iv1_iv2' * L1' * L2' + b_year_iv1_iv2' * L1' * L2')%float in
    Some {| year_inc := year_inc'; b_cons := b_cons'; b_year := b_year';
            base_val := base_val'; inter_val := inter_val';
            L1 := L1'; L2 := L2';
            b_iv1 := b_iv1'; b_year_iv1 := b_year_iv1';
            b_iv2 := b_iv2'; b_year_iv2 := b_year_iv2';
            b_iv1_iv2 := b_iv1_iv2'; b_year_iv1_iv2 := b_year_iv1_iv2';
            baseline_values := baseline_values fr ++ [base_val'];
            intervention_values := intervention_values fr ++ [inter_val'] |}
  else
    L1' ← intervention_levels !! key;
    let b_iv1' := Series_get beta "ivparm1" 0 in
    let b_year_iv1' := Series_get beta (fkey_year_iv1 year_inc') 0 in
    let base_val' := (b_cons' + b_year' + b_iv1' * 1.0 + b_year_iv1' * 1.0)%float in
    let inter_val' := (b_cons' + b_year' + b_iv1' * L1' + b_year_iv1' * L1')%float in
    Some {| year_inc := year_inc'; b_cons := b_cons'; b_year := b_year';
            base_val := base_val'; inter_val := inter_val';
            L1 := L1'; L2 := L2 fr;
            b_iv1 := b_iv1'; b_year_iv1 := b_year_iv1';
            b_iv2 := b_iv2 fr; b_year_iv2 := b_year_iv2 fr;
            b_iv1_iv2 := b_iv1_iv2 fr; b_year_iv1_iv2 := b_year_iv1_iv2 fr;
            baseline_values := baseline_values fr ++ [base_val'];
            intervention_values := intervention_values fr ++ [inter_val'] |}.

(** The pair a year's evaluation hands to the caller. *)
Definition outputs (fr : Locals) : float * float := (base_val fr, inter_val fr).

(** The loop [for year in year_range] of one intervention. *)
Fixpoint year_loop (key : string) (intervention_levels beta : gmap string float)
    (fr : Locals) (year_range : list Z) : option Locals :=
  match year_range with
  | [] => Some fr
  | year :: rest =>
      fr' ← year_body key intervention_levels beta fr year;
      year_loop key intervention_levels beta fr' rest
  end.

(** [baseline_values = []; intervention_values = []] (lines 126-127). *)
Definition reset_lists (fr : Locals) : Locals :=
  {| year_inc := year_inc fr; b_cons := b_cons fr; b_year := b_year fr;
     base_val := base_val fr; inter_val := inter_val fr;
     L1 := L1 fr; L2 := L2 fr;
     b_iv1 := b_iv1 fr; b_year_iv1 := b_year_iv1 fr;
     b_iv2 := b_iv2 fr; b_year_iv2 := b_year_iv2 fr;
     b_iv1_iv2 := b_iv1_iv2 fr; b_year_iv1_iv2 := b_year_iv1_iv2 fr;
     baseline_values := []; intervention_values := [] |}.

(** [[i - b for i, b in zip(intervention_values, baseline_values)]]
    (line 202). *)
Definition diff_values (intervention_values baseline_values : list float) : list float :=
  zip_with (λ i b, (i - b)%float) intervention_values baseline_values.

(** ** The selection vocabulary *)

(** A Python [dict] literal with string keys and values, in source order. *)
Fixpoint subscript (d : list (string * string)) (k : string) : option string :=
  match d with
  | [] => None
  | (k', v) :: rest => if decide (k' = k) then Some v else subscript rest k
  end.

Definition INTERVENTION_OPTIONS : list (string * string) :=
  [ ("Diabetes Incidence Reduction", "pdiabe");
    ("Heart Disease Incidence Reduction", "phearte");
    ("Hypertension Incidence Reduction", "phibpe");
    ("MCI/Dementia Incidence Reduction", "pcogstate") ].

Definition OUTCOME_OPTIONS : list (string * string) :=
  [ ("Population", "n_startpop");
    ("Nursing Home Population", "n_nhmliv");
    ("Population with Dementia", "n_cogstate1");
    ("Dementia Prevalence (%)", "p_cogstate1");
    ("Population with MCI", "n_cogstate2");
    ("MCI Prevalence (%)", "p_cogstate2");
    ("Population with Diabetes", "n_diabe");
    ("Diabetes Prevalence (%)", "p_diabe");
    ("Population with Heart Disease", "n_hearte");
    ("Heart Disease Prevalence (%)", "p_hearte");
    ("Population with Hypertension", "n_hibpe");
    ("Hypertension Prevalence (%)", "p_hibpe") ].

Definition SUBGROUP_OPTIONS : list (string * string) :=
  [ ("Age 55-64", "5564");
    ("Age 65-74", "6574");
    ("Age 75-84", "7584");
    ("Age 85+", "85p");
    ("All", "all");
    ("Non-Hispanic black", "blk");
    ("At least some college", "college");
    ("Female", "f");
    ("Hispanic", "his");
    ("Hispanic female", "his_f");
    ("GED or less than high school", "hsless");
    ("Male", "m");
    ("Non-Hispanic white", "wht") ].

(** [list(range(start, stop, 2))]. *)
Definition range2 (start stop : Z) : list Z :=
  (λ i : nat, start + 2 * Z.of_nat i) <$> seq 0 (Z.to_nat ((stop - start + 1) `div` 2)).

(** Lines 84-91: one slider per selected intervention, two for
    ["pcogstate"].  [slider label] is the position the user left the
    slider with that label at. *)
Definition levels_step (slider : string → float) (intervention_levels : gmap string float)
    (item : string) : option (gmap string float) :=
  key ← subscript INTERVENTION_OPTIONS item;
  if decide (key = "pcogstate") then
    Some (<["pcogstate_2" := slider "MCI Prevalence Reduction"]>
          (<["pcogstate_1" := slider "Dementia Prevalence Reduction"]>
           intervention_levels))
  else
    Some (<[key := slider (item +:+ " Level")]> intervention_levels).

Fixpoint levels_loop (slider : string → float) (intervention_levels : gmap string float)
    (selected_interventions : list string) : option (gmap string float) :=
  match selected_interventions with
  | [] => Some intervention_levels
  | item :: rest =>
      lv ← levels_step slider intervention_levels item;
      levels_loop slider lv rest
  end.

(** ** The simulation run *)

(** [results_df] without its ["Year"] column (which is [year_range]):
    the float columns in the order they were first assigned. *)
Fixpoint set_column (name : string) (values : list float)
    (df : list (string * list float)) : list (string * list float) :=
  match df with
  | [] => [(name, values)]
  | (n, v) :: rest =>
      if decide (n = name) then (n, values) :: rest
      else (n, v) :: set_column name values rest
  end.

Fixpoint column (df : list (string * list float)) (name : string) : option (list float) :=
  match df with
  | [] => None
  | (n, v) :: rest => if decide (n = name) then Some v else column rest name
  end.

(** One trace added to a figure ([go.Scatter]): its data, legend name,
    mode, colour and dash.  Line width, opacity and the hover template
    are fixed formatting and are left out, as is [update_layout]. *)
Record Scatter := mkScatter {
  x : list Z;
  y : list float;
  mode : string;
  name : string;
  line_color : string;
  line_dash : bool
}.

(** What the script shows on the page. *)
Inductive event :=
  | st_error (msg : string)
  | st_subheader (text : string)
  | st_plotly_chart (fig : list Scatter).

Record RunState := mkRunState {
  locals : Locals;
  results_df : list (string * list float);
  valid_plot : bool;
  page : list event
}.

Definition msg_not_loaded (key : string) : string :=
  "Dataset for " +:+ key +:+ " not loaded.".

Definition msg_no_column (target_col key : string) : string :=
  "Column '" +:+ target_col +:+ "' not found in " +:+ key +:+ " dataset.".

Definition col_baseline (display_name : string) : string :=
  "Baseline (" +:+ display_name +:+ ")".
Definition col_intervention (display_name : string) : string :=
  "Intervention (" +:+ display_name +:+ ")".
Definition col_change (display_name : string) : string :=
  "Change (" +:+ display_name +:+ ")".

(** The body of [for display_name in selected_interventions]
    (lines 111-208).  [None] is an uncaught [KeyError]. *)
Definition intervention_body (df_dict : gmap string (gmap string (gmap string float)))
    (target_col : string) (intervention_levels : gmap string float)
    (year_range : list Z) (st : RunState) (display_name : string) : option RunState :=
  key ← subscript INTERVENTION_OPTIONS display_name;
  match df_dict !! key with
  | None =>
      Some {| locals := locals st; results_df := results_df st;
              valid_plot := valid_plot st;
              page := page st ++ [st_error (msg_not_loaded key)] |}
  | Some df =>
      match df !! target_col with
      | None =>
          Some {| locals := locals st; results_df := results_df st;
                  valid_plot := valid_plot st;
                  page := page st ++ [st_error (msg_no_column target_col key)] |}
      | Some beta =>
          fr ← year_loop key intervention_levels beta (reset_lists (locals st)) year_range;
          let diff := diff_values (intervention_values fr) (baseline_values fr) in
          let df1 := set_column (col_baseline display_name) (baseline_values fr) (results_df st) in
          let df2 := set_column (col_intervention display_name) (intervention_values fr) df1 in
          let df3 := set_column (col_baseline display_name) (baseline_values fr) df2 in
          let df4 := set_column (col_intervention display_name) (intervention_values fr) df3 in
          let df5 := set_column (col_change display_name) diff df4 in
          Some {| locals := fr; results_df := df5; valid_plot := true; page := page st |}
      end
  end.

Fixpoint intervention_loop (df_dict : gmap string (gmap string (gmap string float)))
    (target_col : string) (intervention_levels : gmap string float)
    (year_range : list Z) (st : RunState) (selected_interventions : list string)
    : option RunState :=
  match selected_interventions with
  | [] => Some st
  | display_name :: rest =>
      st' ← intervention_body df_dict target_col intervention_levels year_range st display_name;
      intervention_loop df_dict target_col intervention_levels year_range st' rest
  end.

(** *** The two figures *)

Definition colors : list string :=
  ["#990000"; "#FFCC00"; "#293035"; "#53616a"; "#bdc4c9"].

(** ["%" in selected_outcome] *)
Fixpoint has_percent (s : string) : bool :=
  match s with
  | EmptyString => false
  | String c rest => Ascii.eqb c "%"%char || has_percent rest
  end.

(** [y_val * 100] when the outcome is a percentage. *)
Definition y_shown (selected_outcome : string) (y_val : list float) : list float :=
  if has_percent selected_outcome then (λ v, (v * 100)%float) <$> y_val else y_val.

(** One round of the loop at lines 221-266.  [str_float] stands for
    Python's formatting of a float inside an f-string. *)
Definition fig_body (str_float : float → string) (intervention_levels : gmap string float)
    (results_df : list (string * list float)) (year_range : list Z)
    (selected_outcome : string) (fig : list Scatter) (i : nat) (display_name : string)
    : option (list Scatter) :=
  let color := nth (i mod length colors) colors "" in
  key ← subscript INTERVENTION_OPTIONS display_name;
  inter_label ←
    (if decide (key = "pcogstate") then
       l1 ← intervention_levels !! "pcogstate_1";
       l2 ← intervention_levels !! "pcogstate_2";
       Some (display_name +:+ " (L1=" +:+ str_float l1 +:+ ", L2=" +:+ str_float l2 +:+ ")")
     else
       level ← intervention_levels !! key;
       Some (display_name +:+ " (Level=" +:+ str_float level +:+ ")"));
  let base_name := "<b>Baseline:</b> " +:+ display_name in
  let inter_name := "<b>Intervention:</b> " +:+ inter_label in
  let fig1 :=
    match column results_df (col_baseline display_name) with
    | Some y_val =>
        fig ++ [ {| x := year_range; y := y_shown selected_outcome y_val;
                    mode := "lines"; name := base_name;
                    line_color := color; line_dash := true |} ]
    | None => fig
    end in
  let fig2 :=
    match column results_df (col_intervention display_name) with
    | Some y_val =>
        fig1 ++ [ {| x := year_range; y := y_shown selected_outcome y_val;
                     mode := "lines+markers"; name := inter_name;
                     line_color := color; line_dash := false |} ]
    | None => fig1
    end in
  Some fig2.

Fixpoint fig_loop (str_float : float → string) (intervention_levels : gmap string float)
    (results_df : list (string * list float)) (year_range : list Z)
    (selected_outcome : string) (fig : list Scatter) (i : nat)
    (selected_interventions : list string) : option (list Scatter) :=
  match selected_interventions with
  | [] => Some fig
  | display_name :: rest =>
      fig' ← fig_body str_float intervention_levels results_df year_range
               selected_outcome fig i display_name;
      fig_loop str_float intervention_levels results_df year_range
        selected_outcome fig' (S i) rest
  end.

(** One round of the loop at lines 297-314. *)
Definition fig_diff_body (results_df : list (string * list float)) (year_range : list Z)
    (selected_outcome : string) (fig_diff : list Scatter) (i : nat) (display_name : string)
    : list Scatter :=
  let color := nth (i mod length colors) colors "" in
  let change_name := "<b>Change:</b> " +:+ display_name in
  match column results_df (col_change display_name) with
  | Some y_val =>
      fig_diff ++ [ {| x := year_range; y := y_shown selected_outcome y_val;
                       mode := "lines+markers"; name := change_name;
                       line_color := color; line_dash := false |} ]
  | None => fig_diff
  end.

Fixpoint fig_diff_loop (results_df : list (string * list float)) (year_range : list Z)
    (selected_outcome : string) (fig_diff : list Scatter) (i : nat)
    (selected_interventions : list string) : list Scatter :=
  match selected_interventions with
  | [] => fig_diff
  | display_name :: rest =>
      fig_diff_loop results_df year_range selected_outcome
        (fig_diff_body results_df year_range selected_outcome fig_diff i display_name)
        (S i) rest
  end.

(** *** The script from the sidebar sliders to the charts *)

(** How a run ends: [st.stop()] or the end of the script, each with what
    the simulation put on the page. *)
Inductive outcome :=
  | Stopped (shown : list event)
  | Completed (shown : list event).

(** The loop variables before the first iteration.  Python has them
    unbound; [year_body] assigns each one before it reads it, so the
    values here are never looked at. *)
Definition unbound : Locals :=
  {| year_inc := 0; b_cons := 0; b_year := 0; base_val := 0; inter_val := 0;
     L1 := 0; L2 := 0; b_iv1 := 0; b_year_iv1 := 0; b_iv2 := 0; b_year_iv2 := 0;
     b_iv1_iv2 := 0; b_year_iv1_iv2 := 0;
     baseline_values := []; intervention_values := [] |}.

(** Lines 102 and 108: [results_df] with its ["Year"] column only,
    [valid_plot = False], nothing on the page yet. *)
Definition initial_state : RunState :=
  {| locals := unbound; results_df := []; valid_plot := false; page := [] |}.

(** Lines 84-339, the "Run Simulation" button pressed.  [None] is an
    uncaught [KeyError]. *)
Definition run (str_float : float → string)
    (df_dict : gmap string (gmap string (gmap string float)))
    (slider : string → float)
    (selected_outcome selected_subgroup : string)
    (selected_interventions : list string)
    (start_year end_year : Z) : option outcome :=
  intervention_levels ← levels_loop slider ∅ selected_interventions;
  outcome_code ← subscript OUTCOME_OPTIONS selected_outcome;
  subgroup_code ← subscript SUBGROUP_OPTIONS selected_subgroup;
  let target_col := outcome_code +:+ "_" +:+ subgroup_code in
  let year_range := range2 start_year (end_year + 1) in
  st ← intervention_loop df_dict target_col intervention_levels year_range
         initial_state selected_interventions;
  if negb (valid_plot st) then Some (Stopped (page st))
  else
    fig ← fig_loop str_float intervention_levels (results_df st) year_range
            selected_outcome [] 0 selected_interventions;
    let fig_diff :=
      fig_diff_loop (results_df st) year_range selected_outcome [] 0
        selected_interventions in
    Some (Completed (page st ++
                     [ st_subheader ("Projected " +:+ selected_outcome);
                       st_plotly_chart fig;
                       st_subheader "Change from Baseline";
                       st_plotly_chart fig_diff ])).

(** ** The predictor as the specification words it *)
Module Spec.

(** The typed accessor: [0.0] for an absent name. *)
Definition coefficient (table : gmap string float) (name : string) : float :=
  default 0%float (table !! name).

Definition value1 (beta : gmap string float) (year : Z) (L : float) : float :=
  let Y := year - 2024 in
  let b_cons := coefficient beta "_cons" in
  let b_year := coefficient beta (pretty Y +:+ ".year_inc") in
  let b_iv1 := coefficient beta "ivparm1" in
  let b_year_iv1 := coefficient beta (pretty Y +:+ ".year_inc#c.ivparm1") in
  (b_cons + b_year + b_iv1 * L + b_year_iv1 * L)%float.

Definition value2 (beta : gmap string float) (year : Z) (L1 L2 : float) : float :=
  let Y := year - 2024 in
  let b_cons := coefficient beta "_cons" in
  let b_year := coefficient beta (pretty Y +:+ ".year_inc") in
  let b_iv1 := coefficient beta "ivparm1" in
  let b_year_iv1 := coefficient beta (pretty Y +:+ ".year_inc#c.ivparm1") in
  let b_iv2 := coefficient beta "ivparm2" in
  let b_year_iv2 := coefficient beta (pretty Y +:+ ".year_inc#c.ivparm2") in
  let b_iv1_iv2 := coefficient beta "c.ivparm1#c.ivparm2" in
  let b_year_iv1_iv2 :=
    coefficient beta (pretty Y +:+ ".year_inc#c.ivparm1#c.ivparm2") in
  (b_cons + b_year + b_iv1 * L1 + b_year_iv1 * L1 + b_iv2 * L2 + b_year_iv2 * L2
   + b_iv1_iv2 * L1 * L2 + b_year_iv1_iv2 * L1 * L2)%float.

Definition single_level (beta : gmap string float) (year : Z) (L1 : float)
    : float * float :=
  (value1 beta year 1.0, value1 beta year L1).

Definition two_level (beta : gmap string float) (year : Z) (L1 L2 : float)
    : float * float :=
  (value2 beta year 1.0 1.0, value2 beta year L1 L2).

(** The pair for an intervention identity and the slider levels of a
    run; [None] when a level it needs was never set. *)
Definition predict (key : string) (levels beta : gmap string float) (year : Z)
    : option (float * float) :=
  if decide (key = "pcogstate") then
    l1 ← levels !! "pcogstate_1";
    l2 ← levels !! "pcogstate_2";
    Some (two_level beta year l1 l2)
  else
    l1 ← levels !! key;
    Some (single_level beta year l1).

End Spec.

(** The row names only the two-level model reads: [ivparm2],
    [{Y}.year_inc#c.ivparm2], [c.ivparm1#c.ivparm2] and
    [{Y}.year_inc#c.ivparm1#c.ivparm2], for any offset [Y]. *)
Definition ivparm2_family (k : string) : Prop :=
  k = "ivparm2" ∨ k = "c.ivparm1#c.ivparm2"
  ∨ (∃ Y : Z, k = fkey_year_iv2 Y) ∨ (∃ Y : Z, k = fkey_year_iv1_iv2 Y).

(** The last character of a string, to tell row names apart. *)
Fixpoint last_char (s : string) : option ascii :=
  match s with
  | EmptyString => None
  | String c rest =>
      match last_char rest with
      | Some d => Some d
      | None => Some c
      end
  end.

(** ** Vocabulary of the error handling *)

(** The coefficient column a selected intervention is evaluated on: its
    table is loaded and has the selected column. *)
Definition selected_column (df_dict : gmap string (gmap string (gmap string float)))
    (target_col display_name : string) : option (gmap string float) :=
  key ← subscript INTERVENTION_OPTIONS display_name;
  df ← df_dict !! key;
  df !! target_col.

Definition usable (df_dict : gmap string (gmap string (gmap string float)))
    (target_col display_name : string) : Prop :=
  is_Some (selected_column df_dict target_col display_name).

(** What is reported for a selected intervention that is not usable. *)
Definition report (df_dict : gmap string (gmap string (gmap string float)))
    (target_col display_name : string) : option string :=
  key ← subscript INTERVENTION_OPTIONS display_name;
  match df_dict !! key with
  | None => Some (msg_not_loaded key)
  | Some df =>
      match df !! target_col with
      | None => Some (msg_no_column target_col key)
      | Some _ => None
      end
  end.

(** The sliders hold the level or levels a selected intervention reads. *)
Definition levels_cover (levels : gmap string float) (display_name : string) : Prop :=
  ∃ key, subscript INTERVENTION_OPTIONS display_name = Some key
    ∧ if decide (key = "pcogstate")
      then is_Some (levels !! "pcogstate_1") ∧ is_Some (levels !! "pcogstate_2")
      else is_Some (levels !! key).

(** The three columns of an intervention in [results_df] hold the series
    [outs] of (baseline, intervention) pairs and their differences. *)
Definition columns_hold (df : list (string * list float)) (display_name : string)
    (outs : list (float * float)) : Prop :=
  column df (col_baseline display_name) = Some outs.*1
  ∧ column df (col_intervention display_name) = Some outs.*2
  ∧ column df (col_change display_name) = Some (diff_values outs.*2 outs.*1).

(** [results_df] has no column of an intervention. *)
Definition no_columns (df : list (string * list float)) (display_name : string) : Prop :=
  column df (col_baseline display_name) = None
  ∧ column df (col_intervention display_name) = None
  ∧ column df (col_change display_name) = None.

(** The levels an intervention reads are the positions of its own
    slider or sliders. *)
Definition level_of_slider (slider : string → float) (levels : gmap string float)
    (display_name key : string) : Prop :=
  if decide (key = "pcogstate")
  then levels !! "pcogstate_1" = Some (slider "Dementia Prevalence Reduction")
       ∧ levels !! "pcogstate_2" = Some (slider "MCI Prevalence Reduction")
  else levels !! key = Some (slider (display_name +:+ " Level")).

(** A well-formed trace of a run: plotted over the years of the run,
    one value per year, in one of the five colours. *)
Definition trace_ok (year_range : list Z) (t : Scatter) : Prop :=
  x t = year_range ∧ length (y t) = length year_range ∧ line_color t ∈ colors.

(** Every column of [results_df] holds one value per year of the run. *)
Definition rows_match (year_range : list Z) (df : list (string * list float)) : Prop :=
  Forall (λ c, length c.2 = length year_range) df.

(** Two states of a run that differ at most in what was put on the page. *)
Definition same_data (st1 st2 : RunState) : Prop :=
  locals st1 = locals st2
  ∧ results_df st1 = results_df st2
  ∧ valid_plot st1 = valid_plot st2.

(** A page event that is a chart or a chart's heading. *)
Definition is_chart_output (e : event) : Prop :=
  match e with
  | st_error _ => False
  | st_subheader _ | st_plotly_chart _ => True
  end.

(** ** Tables of the worked examples *)

(** The single-level table of the specification's P2 and P3. *)
Definition beta_P2 : gmap string float :=
  <["_cons" := 10%float]>
    (<["2.year_inc" := 1%float]>
      (<["ivparm1" := (-4)%float]>
        (<["2.year_inc#c.ivparm1" := (-0.5)%float]> ∅))).

(** A two-level table for year 2026 with [_cons] 0, the two main
    effects and their two-way interaction 1, and every row of the year
    offset 0, the three-way row included. *)
Definition beta_P4 : gmap string float :=
  <["_cons" := 0%float]>
    (<["2.year_inc" := 0%float]>
      (<["ivparm1" := 1%float]>
        (<["2.year_inc#c.ivparm1" := 0%float]>
          (<["ivparm2" := 1%float]>
            (<["2.year_inc#c.ivparm2" := 0%float]>
              (<["c.ivparm1#c.ivparm2" := 1%float]>
                (<["2.year_inc#c.ivparm1#c.ivparm2" := 0%float]> ∅))))))).

(** The two-level table of P4 for year 2026: [_cons] 0, the main
    effects [ivparm1], [ivparm2] and the two interaction coefficients of
    the two-level formula (two-way and three-way) 1, and the year terms
    [2.year_inc], [2.year_inc#c.ivparm1], [2.year_inc#c.ivparm2] 0. *)
Definition beta_P4_interactions : gmap string float :=
  <["2.year_inc#c.ivparm1#c.ivparm2" := 1%float]> beta_P4.

(** A table as P8 asks for: the single-level rows of [beta_P2] together
    with rows of the [ivparm2] family. *)
Definition beta_P8 : gmap string float :=
  <["ivparm2" := 3%float]>
    (<["2.year_inc#c.ivparm2" := 5%float]>
      (<["c.ivparm1#c.ivparm2" := 7%float]>
        (<["2.year_inc#c.ivparm1#c.ivparm2" := 9%float]> beta_P2))).

(** Finite coefficients whose sum overflows binary64. *)
Definition beta_huge : gmap string float :=
  <["_cons" := 0x1.fffffffffffffp+1023%float]>
    (<["ivparm1" := 0x1.fffffffffffffp+1023%float]> ∅).

(** A table with an empty cell, which [pd.read_csv] reads as NaN. *)
Definition beta_nan : gmap string float :=
  <["_cons" := nan]> (<["ivparm1" := 1%float]> ∅).

(** The sliders of the two-level model, both at 1.0. *)
Definition levels_one : gmap string float :=
  <["pcogstate_1" := 1.0%float]> (<["pcogstate_2" := 1.0%float]> ∅).

(** Loaded tables for a run: the diabetes table with the column of
    diabetes prevalence over everybody, the hypertension table without
    that column, and no table for heart disease or dementia. *)
Definition df_dict_P2 : gmap string (gmap string (gmap string float)) :=
  <["pdiabe" := <["p_diabe_all" := beta_P2]> ∅]>
    (<["phibpe" := <["n_hibpe_all" := beta_P2]> ∅]> ∅).

(** Every slider left at its default position. *)
Definition slider_default (label : string) : float :=
  if decide (label = "MCI Prevalence Reduction") then 0.90%float else 0.85%float.

(** ** Loading the cleaned tables ([load_cleaned_data]) *)

Definition CLEANED_DATASETS : list (string * string) :=
  [ ("pdiabe", "clean_data/pdiabe_cleaned.csv");
    ("phearte", "clean_data/phearte_cleaned.csv");
    ("phibpe", "clean_data/phibpe_cleaned.csv");
    ("pcogstate", "clean_data/pcogstate_cleaned.csv") ].

(** The loop of lines 15-19.  The file system is read through
    [path_exists] ([os.path.exists]) and [read_csv]
    ([pd.read_csv(path, index_col=0)], taken to succeed on a file that
    exists). *)
Fixpoint load_loop (path_exists : string → bool)
    (read_csv : string → gmap string (gmap string float))
    (items : list (string * string))
    (df_dict : gmap string (gmap string (gmap string float)))
    : gmap string (gmap string (gmap string float)) :=
  match items with
  | [] => df_dict
  | (key, path) :: rest =>
      load_loop path_exists read_csv rest
        (if path_exists path then <[key := read_csv path]> df_dict else df_dict)
  end.

Definition load_cleaned_data (path_exists : string → bool)
    (read_csv : string → gmap string (gmap string float))
    : gmap string (gmap string (gmap string float)) :=
  load_loop path_exists read_csv CLEANED_DATASETS ∅.

(** ** The cleaning script ([clean_data.py])

    A Python [str] is a list of Unicode code points. *)
Module CleanData.

Definition RAW_DATASETS : list (string * string) :=
  [ ("pdiabe", "data/uscdm_emu_pdiabe_regression_ests.csv");
    ("phearte", "data/uscdm_emu_phearte_regression_ests.csv");
    ("phibpe", "data/uscdm_emu_phibpe_regression_ests.csv");
    ("pcogstate", "data/uscdm_emu_pcogstate_regression_ests.csv") ].

Definition CLEANED_DIR : string := "clean_data".

(** The double quote and the equals sign. *)
Definition quote : N := 34.
Definition equals : N := 61.

(** The code points [str.strip()] removes: those [str.isspace] accepts. *)
Definition isspace (c : N) : bool :=
  ((9 <=? c) && (c <=? 13) || (28 <=? c) && (c <=? 32)
   || (c =? 133) || (c =? 160) || (c =? 5760)
   || (8192 <=? c) && (c <=? 8202)
   || (c =? 8232) || (c =? 8233) || (c =? 8239) || (c =? 8287) || (c =? 12288))%N.

(** The set [chars] of the second [strip]: the double quote. *)
Definition isquote (c : N) : bool := (c =? quote)%N.

Fixpoint lstrip (chars : N → bool) (s : list N) : list N :=
  match s with
  | [] => []
  | c :: rest => if chars c then lstrip chars rest else s
  end.

Definition rstrip (chars : N → bool) (s : list N) : list N :=
  reverse (lstrip chars (reverse s)).

(** [s.strip()] and [s.strip(chars)]. *)
Definition strip (chars : N → bool) (s : list N) : list N :=
  rstrip chars (lstrip chars s).

(** [s.startswith(p)] and [s.endswith(p)]. *)
Definition startswith (s p : list N) : bool := bool_decide (take (length p) s = p).
Definition endswith (s p : list N) : bool :=
  bool_decide (drop (length s - length p) s = p ∧ length p ≤ length s)%nat.

(** The slice [s[2:-1]]: from index 2 up to, not including, the last
    code point; empty when there are fewer than four. *)
Definition slice_2_m1 (s : list N) : list N := drop 2 (take (length s - 1) s).

(** Lines 15-20, for a column name that is a [str]. *)
Definition clean_column (col : list N) : list N :=
  let col1 := strip isspace col in
  let col2 :=
    if startswith col1 [equals; quote] && endswith col1 [quote]
    then slice_2_m1 col1 else col1 in
  strip isquote col2.

(** Lines 23-29.  A cell is a [str] or some other value. *)
Definition clean_cell {V : Type} (val : list N + V) : list N + V :=
  match val with
  | inl s =>
      let s1 := strip isspace s in
      if startswith s1 [equals; quote] && endswith s1 [quote]
      then inl (slice_2_m1 s1)
      else inl (strip isquote s1)
  | inr v => inr v
  end.

(** [os.path.join(a, b)] for two components, on POSIX. *)
Definition path_join (a b : string) : string :=
  match b with
  | String "/" _ => b
  | _ =>
      match last_char a with
      | None => b
      | Some "/"%char => a +:+ b
      | Some _ => a +:+ "/" +:+ b
      end
  end.

(** Line 79: where the cleaned table of [name] is written. *)
Definition output_path (name : string) : string :=
  path_join CLEANED_DIR (name +:+ "_cleaned.csv").

(** The code points of a string without double quotes, for examples. *)
Fixpoint codes (s : string) : list N :=
  match s with
  | EmptyString => []
  | String c rest => N_of_ascii c :: codes rest
  end.

End CleanData.

(** ** Properties *)

Lemma Series_get_coefficient (beta : gmap string float) (name : string) :
  Series_get beta name 0 = Spec.coefficient beta name.
Proof. unfold Series_get, Spec.coefficient. by destruct (beta !! name). Qed.

Example fkey_year_2026 : fkey_year (2026 - 2024) = "2.year_inc".
Proof. reflexivity. Qed.

Example fkey_year_iv1_2026 : fkey_year_iv1 (2026 - 2024) = "2.year_inc#c.ivparm1".
Proof. reflexivity. Qed.

Example fkey_year_negative : fkey_year (2020 - 2024) = "-4.year_inc".
Proof. reflexivity. Qed.

(** *** The two branches of the loop body *)

Lemma year_body_single (key : string) (levels beta : gmap string float)
    (fr : Locals) (year : Z) (l1 : float) :
  key ≠ "pcogstate" →
  levels !! key = Some l1 →
  ∃ fr', year_body key levels beta fr year = Some fr'
    ∧ year_inc fr' = year - 2024
    ∧ b_cons fr' = Series_get beta "_cons" 0
    ∧ b_year fr' = Series_get beta (fkey_year (year - 2024)) 0
    ∧ b_iv1 fr' = Series_get beta "ivparm1" 0
    ∧ b_year_iv1 fr' = Series_get beta (fkey_year_iv1 (year - 2024)) 0
    ∧ L1 fr' = l1
    ∧ base_val fr' = (b_cons fr' + b_year fr' + b_iv1 fr' * 1.0 + b_year_iv1 fr' * 1.0)%float
    ∧ inter_val fr' = (b_cons fr' + b_year fr' + b_iv1 fr' * l1 + b_year_iv1 fr' * l1)%float
    ∧ baseline_values fr' = baseline_values fr ++ [base_val fr']
    ∧ intervention_values fr' = intervention_values fr ++ [inter_val fr'].
Proof.
  intros Hkey Hl1. unfold year_body.
  rewrite decide_False by done. rewrite Hl1. simpl.
  eexists. split; [reflexivity|]. simpl. repeat split.
Qed.

Lemma year_body_two (levels beta : gmap string float)
    (fr : Locals) (year : Z) (l1 l2 : float) :
  levels !! "pcogstate_1" = Some l1 →
  levels !! "pcogstate_2" = Some l2 →
  ∃ fr', year_body "pcogstate" levels beta fr year = Some fr'
    ∧ year_inc fr' = year - 2024
    ∧ b_cons fr' = Series_get beta "_cons" 0
    ∧ b_year fr' = Series_get beta (fkey_year (year - 2024)) 0
    ∧ b_iv1 fr' = Series_get beta "ivparm1" 0
    ∧ b_year_iv1 fr' = Series_get beta (fkey_year_iv1 (year - 2024)) 0
    ∧ b_iv2 fr' = Series_get beta "ivparm2" 0
    ∧ b_year_iv2 fr' = Series_get beta (fkey_year_iv2 (year - 2024)) 0
    ∧ b_iv1_iv2 fr' = Series_get beta "c.ivparm1#c.ivparm2" 0
    ∧ b_year_iv1_iv2 fr' = Series_get beta (fkey_year_iv1_iv2 (year - 2024)) 0
    ∧ L1 fr' = l1 ∧ L2 fr' = l2
    ∧ base_val fr' =
        (b_cons fr' + b_year fr' + b_iv1 fr' * 1.0 + b_year_iv1 fr' * 1.0
         + b_iv2 fr' * 1.0 + b_year_iv2 fr' * 1.0
         + b_iv1_iv2 fr' * 1.0 * 1.0 + b_year_iv1_iv2 fr' * 1.0 * 1.0)%float
    ∧ inter_val fr' =
        (b_cons fr' + b_year fr' + b_iv1 fr' * l1 + b_year_iv1 fr' * l1
         + b_iv2 fr' * l2 + b_year_iv2 fr' * l2
         + b_iv1_iv2 fr' * l1 * l2 + b_year_iv1_iv2 fr' * l1 * l2)%float
    ∧ baseline_values fr' = baseline_values fr ++ [base_val fr']
    ∧ intervention_values fr' = intervention_values fr ++ [inter_val fr'].
Proof.
  intros Hl1 Hl2. unfold year_body.
  rewrite decide_True by done. rewrite Hl1, Hl2. simpl.
  eexists. split; [reflexivity|]. simpl. repeat split.
Qed.

Lemma value1_unfold (beta : gmap string float) (year : Z) (L : float) :
  Spec.value1 beta year L =
  (Series_get beta "_cons" 0 + Series_get beta (fkey_year (year - 2024)) 0
   + Series_get beta "ivparm1" 0 * L
   + Series_get beta (fkey_year_iv1 (year - 2024)) 0 * L)%float.
Proof. unfold Spec.value1. by rewrite !Series_get_coefficient. Qed.

Lemma value2_unfold (beta : gmap string float) (year : Z) (A B : float) :
  Spec.value2 beta year A B =
  (Series_get beta "_cons" 0 + Series_get beta (fkey_year (year - 2024)) 0
   + Series_get beta "ivparm1" 0 * A
   + Series_get beta (fkey_year_iv1 (year - 2024)) 0 * A
   + Series_get beta "ivparm2" 0 * B
   + Series_get beta (fkey_year_iv2 (year - 2024)) 0 * B
   + Series_get beta "c.ivparm1#c.ivparm2" 0 * A * B
   + Series_get beta (fkey_year_iv1_iv2 (year - 2024)) 0 * A * B)%float.
Proof. unfold Spec.value2. by rewrite !Series_get_coefficient. Qed.

Lemma year_body_single_outputs (key : string) (levels beta : gmap string float)
    (fr : Locals) (year : Z) (l1 : float) :
  key ≠ "pcogstate" →
  levels !! key = Some l1 →
  outputs <$> year_body key levels beta fr year = Some (Spec.single_level beta year l1).
Proof.
  intros Hkey Hl1.
  destruct (year_body_single key levels beta fr year l1 Hkey Hl1)
    as (fr' & -> & _ & Hc & Hyr & Hiv & Hyiv & _ & Hb & Hi & _).
  simpl. unfold outputs, Spec.single_level.
  by rewrite !value1_unfold, Hb, Hi, Hc, Hyr, Hiv, Hyiv.
Qed.

Lemma year_body_two_outputs (levels beta : gmap string float)
    (fr : Locals) (year : Z) (l1 l2 : float) :
  levels !! "pcogstate_1" = Some l1 →
  levels !! "pcogstate_2" = Some l2 →
  outputs <$> year_body "pcogstate" levels beta fr year
  = Some (Spec.two_level beta year l1 l2).
Proof.
  intros Hl1 Hl2.
  destruct (year_body_two levels beta fr year l1 l2 Hl1 Hl2)
    as (fr' & -> & _ & Hc & Hyr & Hiv & Hyiv & Hiv2 & Hyiv2 & Hii & Hyii
        & _ & _ & Hb & Hi & _).
  simpl. unfold outputs, Spec.two_level.
  by rewrite !value2_unfold, Hb, Hi, Hc, Hyr, Hiv, Hyiv, Hiv2, Hyiv2, Hii, Hyii.
Qed.

(** C1: in the single-level branch (any intervention identity other
    than "pcogstate") the loop body sets [year_inc = year - 2024], reads
    [_cons], [{year_inc}.year_inc], [ivparm1] and
    [{year_inc}.year_inc#c.ivparm1] with absent names read as 0, and
    leaves (value(1.0), value(L1)) in [base_val], [inter_val], where
    value(L) = b_cons + b_year + b_iv1 * L + b_year_iv1 * L. *)
Theorem single_level_predictor (beta levels : gmap string float) (key : string)
    (year : Z) (l1 : float) (fr : Locals) :
  key ≠ "pcogstate" →
  levels !! key = Some l1 →
  ∃ fr', year_body key levels beta fr year = Some fr'
    ∧ year_inc fr' = year - 2024
    ∧ b_cons fr' = Spec.coefficient beta "_cons"
    ∧ b_year fr' = Spec.coefficient beta (pretty (year_inc fr') +:+ ".year_inc")
    ∧ b_iv1 fr' = Spec.coefficient beta "ivparm1"
    ∧ b_year_iv1 fr' =
        Spec.coefficient beta (pretty (year_inc fr') +:+ ".year_inc#c.ivparm1")
    ∧ outputs fr' = (Spec.value1 beta year 1.0, Spec.value1 beta year l1)
    ∧ ∀ L, Spec.value1 beta year L =
        (b_cons fr' + b_year fr' + b_iv1 fr' * L + b_year_iv1 fr' * L)%float.
Proof.
  intros Hkey Hl1.
  destruct (year_body_single key levels beta fr year l1 Hkey Hl1)
    as (fr' & Hrun & Hy & Hc & Hyr & Hiv & Hyiv & _ & Hb & Hi & _).
  exists fr'. rewrite Hy.
  rewrite Series_get_coefficient in Hc, Hyr, Hiv, Hyiv.
  assert (Hval : ∀ L, Spec.value1 beta year L =
    (b_cons fr' + b_year fr' + b_iv1 fr' * L + b_year_iv1 fr' * L)%float).
  { intros L. unfold Spec.value1. by rewrite Hc, Hyr, Hiv, Hyiv. }
  repeat split; try done.
  unfold outputs. by rewrite !Hval, Hb, Hi.
Qed.

Lemma single_level_predictor_witness :
  ∃ fr', year_body "pdiabe" {["pdiabe" := 0.85%float]} beta_P2 unbound 2026 = Some fr'
    ∧ year_inc fr' = 2026 - 2024
    ∧ b_cons fr' = Spec.coefficient beta_P2 "_cons"
    ∧ b_year fr' = Spec.coefficient beta_P2 (pretty (year_inc fr') +:+ ".year_inc")
    ∧ b_iv1 fr' = Spec.coefficient beta_P2 "ivparm1"
    ∧ b_year_iv1 fr' =
        Spec.coefficient beta_P2 (pretty (year_inc fr') +:+ ".year_inc#c.ivparm1")
    ∧ outputs fr' = (Spec.value1 beta_P2 2026 1.0, Spec.value1 beta_P2 2026 0.85)
    ∧ ∀ L, Spec.value1 beta_P2 2026 L =
        (b_cons fr' + b_year fr' + b_iv1 fr' * L + b_year_iv1 fr' * L)%float.
Proof.
  apply (single_level_predictor beta_P2 {["pdiabe" := 0.85%float]} "pdiabe" 2026
           0.85%float unbound).
  - discriminate.
  - reflexivity.
Defined.

(** C2: in the two-level branch the loop body reads the eight documented
    coefficients (absent names read as 0) and leaves
    (value(1.0, 1.0), value(L1, L2)) in [base_val], [inter_val], where
    value(L1,L2) = b_cons + b_year + b_iv1*L1 + b_year_iv1*L1 + b_iv2*L2
    + b_year_iv2*L2 + b_iv1_iv2*L1*L2 + b_year_iv1_iv2*L1*L2. *)
Theorem two_level_predictor (beta levels : gmap string float)
    (year : Z) (l1 l2 : float) (fr : Locals) :
  levels !! "pcogstate_1" = Some l1 →
  levels !! "pcogstate_2" = Some l2 →
  ∃ fr', year_body "pcogstate" levels beta fr year = Some fr'
    ∧ year_inc fr' = year - 2024
    ∧ b_cons fr' = Spec.coefficient beta "_cons"
    ∧ b_year fr' = Spec.coefficient beta (pretty (year_inc fr') +:+ ".year_inc")
    ∧ b_iv1 fr' = Spec.coefficient beta "ivparm1"
    ∧ b_year_iv1 fr' =
        Spec.coefficient beta (pretty (year_inc fr') +:+ ".year_inc#c.ivparm1")
    ∧ b_iv2 fr' = Spec.coefficient beta "ivparm2"
    ∧ b_year_iv2 fr' =
        Spec.coefficient beta (pretty (year_inc fr') +:+ ".year_inc#c.ivparm2")
    ∧ b_iv1_iv2 fr' = Spec.coefficient beta "c.ivparm1#c.ivparm2"
    ∧ b_year_iv1_iv2 fr' =
        Spec.coefficient beta (pretty (year_inc fr') +:+ ".year_inc#c.ivparm1#c.ivparm2")
    ∧ outputs fr' = (Spec.value2 beta year 1.0 1.0, Spec.value2 beta year l1 l2)
    ∧ ∀ A B, Spec.value2 beta year A B =
        (b_cons fr' + b_year fr' + b_iv1 fr' * A + b_year_iv1 fr' * A
         + b_iv2 fr' * B + b_year_iv2 fr' * B
         + b_iv1_iv2 fr' * A * B + b_year_iv1_iv2 fr' * A * B)%float.
Proof.
  intros Hl1 Hl2.
  destruct (year_body_two levels beta fr year l1 l2 Hl1 Hl2)
    as (fr' & Hrun & Hy & Hc & Hyr & Hiv & Hyiv & Hiv2 & Hyiv2 & Hii & Hyii
        & _ & _ & Hb & Hi & _).
  exists fr'. rewrite Hy.
  rewrite Series_get_coefficient in Hc, Hyr, Hiv, Hyiv, Hiv2, Hyiv2, Hii, Hyii.
  assert (Hval : ∀ A B, Spec.value2 beta year A B =
    (b_cons fr' + b_year fr' + b_iv1 fr' * A + b_year_iv1 fr' * A
     + b_iv2 fr' * B + b_year_iv2 fr' * B
     + b_iv1_iv2 fr' * A * B + b_year_iv1_iv2 fr' * A * B)%float).
  { intros A B. unfold Spec.value2.
    by rewrite Hc, Hyr, Hiv, Hyiv, Hiv2, Hyiv2, Hii, Hyii. }
  repeat split; try done.
  unfold outputs. by rewrite !Hval, Hb, Hi.
Qed.

Lemma two_level_predictor_witness :
  ∃ fr', year_body "pcogstate" levels_one beta_P4 unbound 2026 = Some fr'
    ∧ year_inc fr' = 2026 - 2024
    ∧ b_cons fr' = Spec.coefficient beta_P4 "_cons"
    ∧ b_year fr' = Spec.coefficient beta_P4 (pretty (year_inc fr') +:+ ".year_inc")
    ∧ b_iv1 fr' = Spec.coefficient beta_P4 "ivparm1"
    ∧ b_year_iv1 fr' =
        Spec.coefficient beta_P4 (pretty (year_inc fr') +:+ ".year_inc#c.ivparm1")
    ∧ b_iv2 fr' = Spec.coefficient beta_P4 "ivparm2"
    ∧ b_year_iv2 fr' =
        Spec.coefficient beta_P4 (pretty (year_inc fr') +:+ ".year_inc#c.ivparm2")
    ∧ b_iv1_iv2 fr' = Spec.coefficient beta_P4 "c.ivparm1#c.ivparm2"
    ∧ b_year_iv1_iv2 fr' =
        Spec.coefficient beta_P4 (pretty (year_inc fr') +:+ ".year_inc#c.ivparm1#c.ivparm2")
    ∧ outputs fr' = (Spec.value2 beta_P4 2026 1.0 1.0, Spec.value2 beta_P4 2026 1.0 1.0)
    ∧ ∀ A B, Spec.value2 beta_P4 2026 A B =
        (b_cons fr' + b_year fr' + b_iv1 fr' * A + b_year_iv1 fr' * A
         + b_iv2 fr' * B + b_year_iv2 fr' * B
         + b_iv1_iv2 fr' * A * B + b_year_iv1_iv2 fr' * A * B)%float.
Proof.
  apply (two_level_predictor beta_P4 levels_one 2026 1.0%float 1.0%float unbound).
  - reflexivity.
  - reflexivity.
Defined.

(** *** What a year's evaluation depends on *)

Lemma year_body_outputs (key : string) (levels beta : gmap string float)
    (fr1 fr2 : Locals) (year : Z) :
  outputs <$> year_body key levels beta fr1 year
  = outputs <$> year_body key levels beta fr2 year.
Proof.
  unfold year_body. case_decide.
  - destruct (levels !! "pcogstate_1"); [|done].
    by destruct (levels !! "pcogstate_2").
  - by destruct (levels !! key).
Qed.

Lemma year_body_is_Some (key : string) (levels beta : gmap string float)
    (fr : Locals) (year : Z) :
  is_Some (year_body key levels beta fr year)
  ↔ if decide (key = "pcogstate")
    then is_Some (levels !! "pcogstate_1") ∧ is_Some (levels !! "pcogstate_2")
    else is_Some (levels !! key).
Proof.
  unfold year_body. case_decide.
  - destruct (levels !! "pcogstate_1"), (levels !! "pcogstate_2"); simpl;
      rewrite !is_Some_alt; tauto.
  - destruct (levels !! key); simpl; rewrite !is_Some_alt; tauto.
Qed.

(** C9: the outputs of a year's evaluation are a function of the
    intervention identity, the levels, the coefficient table and the year
    alone: whatever the script's variables held before, and whatever was
    evaluated in between, the same inputs give the same pair.  The table
    and the levels are only read. *)
Theorem predictor_is_pure (key : string) (levels beta : gmap string float) (year : Z) :
  (∀ fr1 fr2 : Locals,
      outputs <$> year_body key levels beta fr1 year
      = outputs <$> year_body key levels beta fr2 year)
  ∧ (∀ (fr fr1 fr2 fr3 : Locals) (key' : string) (levels' beta' : gmap string float)
       (years : list Z),
      year_body key levels beta fr year = Some fr1 →
      year_loop key' levels' beta' fr1 years = Some fr2 →
      year_body key levels beta fr2 year = Some fr3 →
      outputs fr3 = outputs fr1).
Proof.
  split.
  - intros fr1 fr2. apply year_body_outputs.
  - intros fr fr1 fr2 fr3 key' levels' beta' years H1 _ H3.
    pose proof (year_body_outputs key levels beta fr fr2 year) as H.
    rewrite H1, H3 in H. cbn [fmap option_fmap option_map] in H. congruence.
Qed.

(** *** Absent coefficients *)

Lemma Series_get_insert_zero (beta : gmap string float) (k name : string) :
  beta !! k = None →
  Series_get (<[k := 0%float]> beta) name 0 = Series_get beta name 0.
Proof.
  intros Hk. unfold Series_get.
  destruct (decide (k = name)) as [->|Hne].
  - by rewrite lookup_insert_eq, Hk.
  - by rewrite lookup_insert_ne.
Qed.

(** C4: a name absent from the table reads as 0: adding it with value 0
    changes nothing in either branch, for every year and all levels; and
    no table makes the evaluation fail (it fails only on a level missing
    from [intervention_levels]). *)
Theorem missing_key_is_zero (beta : gmap string float) (k : string)
    (key : string) (levels : gmap string float) (fr : Locals) (year : Z) :
  beta !! k = None →
  year_body key levels (<[k := 0%float]> beta) fr year
  = year_body key levels beta fr year
  ∧ (is_Some (year_body key levels beta fr year)
     ↔ if decide (key = "pcogstate")
       then is_Some (levels !! "pcogstate_1") ∧ is_Some (levels !! "pcogstate_2")
       else is_Some (levels !! key)).
Proof.
  intros Hk. split; [|apply year_body_is_Some].
  unfold year_body. by rewrite !Series_get_insert_zero.
Qed.

Lemma missing_key_is_zero_witness :
  year_body "pcogstate" levels_one (<["ivparm2" := 0%float]> beta_P2) unbound 2026
  = year_body "pcogstate" levels_one beta_P2 unbound 2026
  ∧ (is_Some (year_body "pcogstate" levels_one beta_P2 unbound 2026)
     ↔ if decide ("pcogstate" = "pcogstate")
       then is_Some (levels_one !! "pcogstate_1") ∧ is_Some (levels_one !! "pcogstate_2")
       else is_Some (levels_one !! "pcogstate")).
Proof.
  apply (missing_key_is_zero beta_P2 "ivparm2" "pcogstate" levels_one unbound 2026).
  reflexivity.
Defined.

(** *** Which formula is evaluated *)

Lemma last_char_None (s : string) : last_char s = None → s = "".
Proof.
  destruct s as [|c rest]; [done|]. simpl. by destruct (last_char rest).
Qed.

Lemma last_char_app (s t : string) : t ≠ "" → last_char (s +:+ t) = last_char t.
Proof.
  intros Ht. induction s as [|c s IH]; [done|].
  simpl. rewrite IH. destruct (last_char t) eqn:E; [done|].
  by apply last_char_None in E.
Qed.

Lemma ivparm2_family_last (k : string) :
  ivparm2_family k → last_char k = Some "2"%char.
Proof.
  intros [->|[->|[[Y ->]|[Y ->]]]]; try reflexivity.
  - unfold fkey_year_iv2. by rewrite last_char_app.
  - unfold fkey_year_iv1_iv2. by rewrite last_char_app.
Qed.

Lemma single_level_keys_not_ivparm2 (Y : Z) :
  ¬ ivparm2_family "_cons" ∧ ¬ ivparm2_family (fkey_year Y)
  ∧ ¬ ivparm2_family "ivparm1" ∧ ¬ ivparm2_family (fkey_year_iv1 Y).
Proof.
  repeat split; intros H%ivparm2_family_last; revert H;
    unfold fkey_year, fkey_year_iv1; rewrite ?last_char_app by done; discriminate.
Qed.

Lemma year_body_single_agree (key : string) (levels beta beta' : gmap string float)
    (fr : Locals) (year : Z) :
  key ≠ "pcogstate" →
  (∀ k, ¬ ivparm2_family k → beta' !! k = beta !! k) →
  year_body key levels beta' fr year = year_body key levels beta fr year.
Proof.
  intros Hkey Hagree.
  destruct (single_level_keys_not_ivparm2 (year - 2024)) as (Hc & Hy & Hi & Hyi).
  unfold year_body, Series_get. cbv zeta. rewrite !decide_False by done.
  by rewrite (Hagree _ Hc), (Hagree _ Hy), (Hagree _ Hi), (Hagree _ Hyi).
Qed.

(** C3: the loop body evaluates the two-level formula when the
    intervention identity is "pcogstate" and the single-level formula for
    every other identity; in the single-level case the result is the same
    on every table that differs only in rows of the [ivparm2] family. *)
Theorem variant_selection (key : string) (levels beta : gmap string float)
    (fr : Locals) (year : Z) :
  (key = "pcogstate" →
     ∀ l1 l2, levels !! "pcogstate_1" = Some l1 → levels !! "pcogstate_2" = Some l2 →
       outputs <$> year_body key levels beta fr year
       = Some (Spec.two_level beta year l1 l2))
  ∧ (key ≠ "pcogstate" →
     ∀ l1, levels !! key = Some l1 →
       outputs <$> year_body key levels beta fr year
       = Some (Spec.single_level beta year l1)
       ∧ ∀ beta' : gmap string float,
           (∀ k, ¬ ivparm2_family k → beta' !! k = beta !! k) →
           year_body key levels beta' fr year = year_body key levels beta fr year).
Proof.
  split.
  - intros -> l1 l2 Hl1 Hl2. by apply year_body_two_outputs.
  - intros Hkey l1 Hl1. split.
    + by apply year_body_single_outputs.
    + intros beta' Hagree. by apply year_body_single_agree.
Qed.

(** P8 on a concrete table: with rows of both families present, the
    diabetes intervention gives what the table without the [ivparm2] rows
    gives, and not what the two-level formula would. *)
Example variant_selection_P8 :
  year_body "pdiabe" {["pdiabe" := 0.85%float]} beta_P8 unbound 2026
  = year_body "pdiabe" {["pdiabe" := 0.85%float]} beta_P2 unbound 2026
  ∧ outputs <$> year_body "pdiabe" {["pdiabe" := 0.85%float]} beta_P8 unbound 2026
    = Some (6.5%float, 7.175%float)
  ∧ Spec.two_level beta_P8 2026 0.85 0.85 = (30.5%float, 25.534999999999997%float).
Proof. repeat split; vm_compute; reflexivity. Qed.

(** *** Worked examples in binary64 *)

(** Two floats that some test tells apart are different. *)
Ltac float_neq test :=
  let H := fresh in
  intros H; apply (f_equal test) in H; vm_compute in H; discriminate H.

(** Subtracting a finite binary64 value from itself gives [+0.0]. *)
Lemma sub_diag_finite (v : float) : is_finite v = true → (v - v)%float = 0%float.
Proof.
  intros Hfin. apply Prim2SF_inj. rewrite FloatAxioms.sub_spec.
  unfold is_finite, is_nan, is_infinity in Hfin.
  rewrite !FloatAxioms.eqb_spec, FloatAxioms.abs_spec in Hfin.
  change (Prim2SF 0) with (S754_zero false).
  change (Prim2SF infinity) with (S754_infinity false) in Hfin.
  destruct (Prim2SF v) as [s|s| |s m e]; simpl in *.
  - by destruct s.
  - by destruct s.
  - discriminate.
  - unfold SF64sub, SFsub. by rewrite Z.min_id, Z.sub_diag.
Qed.

(** Subtracting an infinity or a NaN from itself gives NaN. *)
Lemma sub_diag_not_finite (v : float) :
  is_finite v = false → is_nan (v - v)%float = true.
Proof.
  intros Hfin. unfold is_finite, is_nan, is_infinity in *.
  rewrite !FloatAxioms.eqb_spec, ?FloatAxioms.abs_spec, ?FloatAxioms.sub_spec in *.
  change (Prim2SF infinity) with (S754_infinity false) in Hfin.
  destruct (Prim2SF v) as [s|s| |s m e]; simpl in *.
  - by destruct s.
  - by destruct s.
  - done.
  - exfalso. unfold SFeqb, SFcompare in Hfin.
    rewrite Z.compare_refl, Pos.compare_cont_refl in Hfin.
    by destruct s.
Qed.

(** C8 as stated fails in binary64: for the table of P2 and year 2026
    the baseline is 6.5 and the intervention at 0.85 is the double
    nearest 7.175, but their difference is not the double nearest 0.675. *)
Lemma P3_change_counterexample :
  ∃ (fr' : Locals) (change : float),
    year_loop "pdiabe" {["pdiabe" := 0.85%float]} beta_P2 (reset_lists unbound) [2026]
    = Some fr'
    ∧ baseline_values fr' = [6.5%float]
    ∧ intervention_values fr' = [7.175%float]
    ∧ diff_values (intervention_values fr') (baseline_values fr') = [change]
    ∧ change ≠ 0.675%float
    ∧ PrimFloat.eqb change 0.675 = false.
Proof.
  eexists _, _. split; [vm_compute; reflexivity|]. cbn [baseline_values intervention_values].
  repeat split; try (vm_compute; reflexivity).
  float_neq (λ v, PrimFloat.ltb v 0.675).
Qed.

(** C8, amended: baseline 6.5, intervention 7.175, and the change is
    7.175 - 6.5 evaluated in binary64, 0.67499999999999982 (the second
    double below the one nearest 0.675). *)
Theorem P2_P3_worked_example (key : string) (levels : gmap string float) (fr : Locals) :
  key ≠ "pcogstate" →
  levels !! key = Some 0.85%float →
  ∃ fr', year_body key levels beta_P2 fr 2026 = Some fr'
    ∧ base_val fr' = 6.5%float
    ∧ inter_val fr' = 7.175%float
    ∧ diff_values [inter_val fr'] [base_val fr'] = [0.67499999999999982%float]
    ∧ next_up (next_up 0.67499999999999982) = 0.675%float.
Proof.
  intros Hkey Hl1.
  destruct (year_body_single key levels beta_P2 fr 2026 0.85 Hkey Hl1)
    as (fr' & Hrun & _ & Hc & Hyr & Hiv & Hyiv & _ & Hb & Hi & _).
  exists fr'. split; [done|].
  rewrite Hi, Hb, Hc, Hyr, Hiv, Hyiv.
  repeat split; vm_compute; reflexivity.
Qed.

Lemma P2_P3_worked_example_witness :
  ∃ fr', year_body "pdiabe" {["pdiabe" := 0.85%float]} beta_P2 unbound 2026 = Some fr'
    ∧ base_val fr' = 6.5%float
    ∧ inter_val fr' = 7.175%float
    ∧ diff_values [inter_val fr'] [base_val fr'] = [0.67499999999999982%float]
    ∧ next_up (next_up 0.67499999999999982) = 0.675%float.
Proof.
  apply (P2_P3_worked_example "pdiabe" {["pdiabe" := 0.85%float]} unbound).
  - discriminate.
  - reflexivity.
Defined.

(** C7: with [_cons] 0, the main effects [ivparm1], [ivparm2] and the
    two interaction coefficients of the two-level formula
    ([c.ivparm1#c.ivparm2] and the three-way
    [{Y}.year_inc#c.ivparm1#c.ivparm2]) equal to 1, and the year terms
    [{Y}.year_inc], [{Y}.year_inc#c.ivparm1], [{Y}.year_inc#c.ivparm2]
    equal to 0, the two-level baseline is exactly 4 = 1 + 1 + 1 + 1, the
    value of the two-level formula at L1 = L2 = 1.0. *)
Theorem P4_two_level_baseline_is_four (beta levels : gmap string float) (year : Z)
    (l1 l2 : float) (fr : Locals) :
  Spec.coefficient beta "_cons" = 0%float →
  Spec.coefficient beta "ivparm1" = 1%float →
  Spec.coefficient beta "ivparm2" = 1%float →
  Spec.coefficient beta "c.ivparm1#c.ivparm2" = 1%float →
  Spec.coefficient beta (fkey_year_iv1_iv2 (year - 2024)) = 1%float →
  Spec.coefficient beta (fkey_year (year - 2024)) = 0%float →
  Spec.coefficient beta (fkey_year_iv1 (year - 2024)) = 0%float →
  Spec.coefficient beta (fkey_year_iv2 (year - 2024)) = 0%float →
  levels !! "pcogstate_1" = Some l1 →
  levels !! "pcogstate_2" = Some l2 →
  ∃ fr', year_body "pcogstate" levels beta fr year = Some fr'
    ∧ base_val fr' = 4%float
    ∧ base_val fr' = Spec.value2 beta year 1.0 1.0.
Proof.
  intros Hc Hi1 Hi2 Hii Hyii Hy Hyi1 Hyi2 Hl1 Hl2.
  destruct (year_body_two levels beta fr year l1 l2 Hl1 Hl2)
    as (fr' & Hrun & _ & Ec & Ey & Ei1 & Eyi1 & Ei2 & Eyi2 & Eii & Eyii
        & _ & _ & Hb & _).
  exists fr'. split; [done|].
  rewrite value2_unfold, Hb, Ec, Ey, Ei1, Eyi1, Ei2, Eyi2, Eii, Eyii.
  rewrite !Series_get_coefficient, Hc, Hi1, Hi2, Hii, Hy, Hyi1, Hyi2, Hyii.
  split; vm_compute; reflexivity.
Qed.

Lemma P4_two_level_baseline_is_four_witness :
  ∃ fr', year_body "pcogstate" levels_one beta_P4_interactions unbound 2026 = Some fr'
    ∧ base_val fr' = 4%float
    ∧ base_val fr' = Spec.value2 beta_P4_interactions 2026 1.0 1.0.
Proof.
  apply (P4_two_level_baseline_is_four beta_P4_interactions levels_one 2026
           1.0%float 1.0%float unbound);
    reflexivity.
Defined.

(** The three-way coefficient matters: with it at 0 as well, and the
    rest as above, the two-level baseline is 3 = 1 + 1 + 1. *)
Lemma P4_two_level_baseline (beta levels : gmap string float) (year : Z)
    (l1 l2 : float) (fr : Locals) :
  Spec.coefficient beta "_cons" = 0%float →
  Spec.coefficient beta "ivparm1" = 1%float →
  Spec.coefficient beta "ivparm2" = 1%float →
  Spec.coefficient beta "c.ivparm1#c.ivparm2" = 1%float →
  Spec.coefficient beta (fkey_year (year - 2024)) = 0%float →
  Spec.coefficient beta (fkey_year_iv1 (year - 2024)) = 0%float →
  Spec.coefficient beta (fkey_year_iv2 (year - 2024)) = 0%float →
  Spec.coefficient beta (fkey_year_iv1_iv2 (year - 2024)) = 0%float →
  levels !! "pcogstate_1" = Some l1 →
  levels !! "pcogstate_2" = Some l2 →
  ∃ fr', year_body "pcogstate" levels beta fr year = Some fr'
    ∧ base_val fr' = 3%float
    ∧ base_val fr' = Spec.value2 beta year 1.0 1.0.
Proof.
  intros Hc Hi1 Hi2 Hii Hy Hyi1 Hyi2 Hyii Hl1 Hl2.
  destruct (year_body_two levels beta fr year l1 l2 Hl1 Hl2)
    as (fr' & Hrun & _ & Ec & Ey & Ei1 & Eyi1 & Ei2 & Eyi2 & Eii & Eyii
        & _ & _ & Hb & _).
  exists fr'. split; [done|].
  rewrite value2_unfold, Hb, Ec, Ey, Ei1, Eyi1, Ei2, Eyi2, Eii, Eyii.
  rewrite !Series_get_coefficient, Hc, Hi1, Hi2, Hii, Hy, Hyi1, Hyi2, Hyii.
  split; vm_compute; reflexivity.
Qed.

(** Both baselines on the tables for year 2026. *)
Example P4_baselines_2026 :
  outputs <$> year_body "pcogstate" levels_one beta_P4_interactions unbound 2026
  = Some (4%float, 4%float)
  ∧ outputs <$> year_body "pcogstate" levels_one beta_P4 unbound 2026
    = Some (3%float, 3%float).
Proof. split; vm_compute; reflexivity. Qed.

(** *** Levels at 1.0 *)

(** C10 as stated fails in binary64: with finite coefficients whose sum
    overflows, the level at 1.0 gives intervention = baseline = +infinity
    and the change is NaN, not 0. *)
Lemma unit_level_change_counterexample :
  ∃ fr', year_body "pdiabe" {["pdiabe" := 1.0%float]} beta_huge unbound 2026 = Some fr'
    ∧ L1 fr' = 1.0%float
    ∧ base_val fr' = infinity
    ∧ inter_val fr' = infinity
    ∧ diff_values [inter_val fr'] [base_val fr'] = [nan]
    ∧ (inter_val fr' - base_val fr')%float ≠ 0%float
    ∧ PrimFloat.eqb (inter_val fr' - base_val fr') 0 = false.
Proof.
  eexists. split; [vm_compute; reflexivity|]. cbn [L1 base_val inter_val].
  repeat split; try (vm_compute; reflexivity).
  float_neq is_nan.
Qed.

(** The same with an empty cell (NaN) in the table. *)
Example unit_level_change_nan :
  ∃ fr', year_body "pdiabe" {["pdiabe" := 1.0%float]} beta_nan unbound 2026 = Some fr'
    ∧ is_nan (base_val fr') = true
    ∧ PrimFloat.eqb (inter_val fr') (base_val fr') = false
    ∧ is_nan (inter_val fr' - base_val fr') = true.
Proof.
  eexists. split; [vm_compute; reflexivity|]. cbn [base_val inter_val].
  repeat split; vm_compute; reflexivity.
Qed.

(** C10, amended: with every level at 1.0 the intervention value is the
    baseline value, in both branches; the change is 0 when that value is
    finite, and NaN when it is an infinity or NaN. *)
Theorem unit_levels_give_baseline (key : string) (levels beta : gmap string float)
    (fr : Locals) (year : Z) :
  (if decide (key = "pcogstate")
   then levels !! "pcogstate_1" = Some 1.0%float ∧ levels !! "pcogstate_2" = Some 1.0%float
   else levels !! key = Some 1.0%float) →
  ∃ fr', year_body key levels beta fr year = Some fr'
    ∧ inter_val fr' = base_val fr'
    ∧ (is_finite (base_val fr') = true →
       diff_values [inter_val fr'] [base_val fr'] = [0%float])
    ∧ (is_finite (base_val fr') = false →
       is_nan (inter_val fr' - base_val fr') = true).
Proof.
  intros Hlev.
  assert (∃ fr', year_body key levels beta fr year = Some fr'
                 ∧ inter_val fr' = base_val fr') as (fr' & Hrun & Heq).
  { case_decide as Hkey.
    - subst key. destruct Hlev as [Hl1 Hl2].
      destruct (year_body_two levels beta fr year _ _ Hl1 Hl2)
        as (fr' & Hrun & H). exists fr'. split; [done|].
      destruct H as (_ & _ & _ & _ & _ & _ & _ & _ & _ & _ & _ & Hb & Hi & _).
      by rewrite Hb, Hi.
    - destruct (year_body_single key levels beta fr year _ Hkey Hlev)
        as (fr' & Hrun & H). exists fr'. split; [done|].
      destruct H as (_ & _ & _ & _ & _ & _ & Hb & Hi & _).
      by rewrite Hb, Hi. }
  exists fr'. split; [done|]. split; [done|]. rewrite Heq. split.
  - intros Hfin. unfold diff_values. simpl. by rewrite sub_diag_finite.
  - apply sub_diag_not_finite.
Qed.

Lemma unit_levels_give_baseline_witness :
  ∃ fr', year_body "pcogstate" levels_one beta_P4 unbound 2026 = Some fr'
    ∧ inter_val fr' = base_val fr'
    ∧ (is_finite (base_val fr') = true →
       diff_values [inter_val fr'] [base_val fr'] = [0%float])
    ∧ (is_finite (base_val fr') = false →
       is_nan (inter_val fr' - base_val fr') = true).
Proof.
  apply (unit_levels_give_baseline "pcogstate" levels_one beta_P4 unbound 2026).
  split; reflexivity.
Defined.

(** *** The series of an intervention *)

Lemma year_body_predict (key : string) (levels beta : gmap string float)
    (fr : Locals) (year : Z) :
  outputs <$> year_body key levels beta fr year = Spec.predict key levels beta year.
Proof.
  unfold Spec.predict. case_decide as Hkey.
  - subst key. destruct (levels !! "pcogstate_1") as [l1|] eqn:E1.
    + destruct (levels !! "pcogstate_2") as [l2|] eqn:E2.
      * by apply year_body_two_outputs.
      * unfold year_body. rewrite decide_True by done. by rewrite E1, E2.
    + unfold year_body. rewrite decide_True by done. by rewrite E1.
  - destruct (levels !! key) as [l1|] eqn:E1.
    + by apply year_body_single_outputs.
    + unfold year_body. rewrite decide_False by done. by rewrite E1.
Qed.

Lemma year_body_appends (key : string) (levels beta : gmap string float)
    (fr fr' : Locals) (year : Z) :
  year_body key levels beta fr year = Some fr' →
  baseline_values fr' = baseline_values fr ++ [base_val fr']
  ∧ intervention_values fr' = intervention_values fr ++ [inter_val fr'].
Proof.
  unfold year_body. case_decide.
  - destruct (levels !! "pcogstate_1"); [|done].
    destruct (levels !! "pcogstate_2"); [|done].
    simpl. by intros [= <-].
  - destruct (levels !! key); [|done]. simpl. by intros [= <-].
Qed.

Lemma year_loop_series (key : string) (levels beta : gmap string float)
    (years : list Z) (fr fr' : Locals) :
  year_loop key levels beta fr years = Some fr' →
  ∃ outs : list (float * float),
    Forall2 (λ year o, Spec.predict key levels beta year = Some o) years outs
    ∧ baseline_values fr' = baseline_values fr ++ outs.*1
    ∧ intervention_values fr' = intervention_values fr ++ outs.*2.
Proof.
  revert fr. induction years as [|year rest IH]; intros fr; simpl.
  - intros [= <-]. exists []. by rewrite !app_nil_r.
  - destruct (year_body key levels beta fr year) as [fr1|] eqn:E1; [|done].
    simpl. intros Hrest.
    destruct (IH _ Hrest) as (outs & Hall & Hb & Hi).
    apply year_body_appends in E1 as Happ. destruct Happ as [Hb1 Hi1].
    exists (outputs fr1 :: outs). split; [|split].
    + constructor; [|done]. by rewrite <-(year_body_predict key levels beta fr), E1.
    + rewrite Hb, Hb1. simpl. by rewrite <-app_assoc.
    + rewrite Hi, Hi1. simpl. by rewrite <-app_assoc.
Qed.

Lemma diff_values_outs (outs : list (float * float)) :
  diff_values outs.*2 outs.*1 = (λ o, (o.2 - o.1)%float) <$> outs.
Proof.
  unfold diff_values. induction outs as [|o outs IH]; [done|].
  simpl. f_equal. exact IH.
Qed.

(** *** Columns of [results_df] *)

Lemma column_set_column_eq (name : string) (values : list float)
    (df : list (string * list float)) :
  column (set_column name values df) name = Some values.
Proof.
  induction df as [|[n v] df IH]; simpl.
  - by rewrite decide_True.
  - case_decide; simpl.
    + by rewrite decide_True.
    + by rewrite decide_False.
Qed.

Lemma column_set_column_ne (name name' : string) (values : list float)
    (df : list (string * list float)) :
  name ≠ name' →
  column (set_column name values df) name' = column df name'.
Proof.
  intros Hne. induction df as [|[n v] df IH]; simpl.
  - by rewrite decide_False.
  - case_decide; simpl.
    + subst n. by rewrite !decide_False.
    + by rewrite IH.
Qed.

Lemma col_names_differ (d d' : string) :
  col_baseline d ≠ col_intervention d'
  ∧ col_baseline d ≠ col_change d'
  ∧ col_intervention d ≠ col_change d'.
Proof. repeat split; discriminate. Qed.

(** *** One round of the loop over the selected interventions *)

Lemma intervention_body_usable
    (df_dict : gmap string (gmap string (gmap string float)))
    (target_col : string) (levels : gmap string float) (year_range : list Z)
    (st st' : RunState) (d key : string) (df : gmap string (gmap string float))
    (beta : gmap string float) :
  subscript INTERVENTION_OPTIONS d = Some key →
  df_dict !! key = Some df →
  df !! target_col = Some beta →
  intervention_body df_dict target_col levels year_range st d = Some st' →
  ∃ outs : list (float * float),
    Forall2 (λ year o, Spec.predict key levels beta year = Some o) year_range outs
    ∧ results_df st' =
        set_column (col_change d) ((λ o, (o.2 - o.1)%float) <$> outs)
          (set_column (col_intervention d) outs.*2
            (set_column (col_baseline d) outs.*1
              (set_column (col_intervention d) outs.*2
                (set_column (col_baseline d) outs.*1 (results_df st)))))
    ∧ valid_plot st' = true
    ∧ page st' = page st.
Proof.
  intros Hkey Hdf Hcol. unfold intervention_body.
  rewrite Hkey. simpl. rewrite Hdf, Hcol.
  destruct (year_loop key levels beta (reset_lists (locals st)) year_range)
    as [fr|] eqn:Eloop; [|done].
  simpl. intros [= <-]. simpl.
  destruct (year_loop_series _ _ _ _ _ _ Eloop) as (outs & Hall & Hb & Hi).
  simpl in Hb, Hi. exists outs. rewrite Hb, Hi, diff_values_outs. done.
Qed.

(** C5: in the columns an intervention's round writes to [results_df],
    the change at every year of the series is the intervention value
    minus the baseline value at that year, and these two are the outputs
    of that year's evaluation. *)
Theorem change_is_intervention_minus_baseline
    (df_dict : gmap string (gmap string (gmap string float)))
    (target_col : string) (levels : gmap string float) (year_range : list Z)
    (st st' : RunState) (d key : string) (df : gmap string (gmap string float))
    (beta : gmap string float) :
  subscript INTERVENTION_OPTIONS d = Some key →
  df_dict !! key = Some df →
  df !! target_col = Some beta →
  intervention_body df_dict target_col levels year_range st d = Some st' →
  ∃ baseline intervention change : list float,
    column (results_df st') (col_baseline d) = Some baseline
    ∧ column (results_df st') (col_intervention d) = Some intervention
    ∧ column (results_df st') (col_change d) = Some change
    ∧ change = diff_values intervention baseline
    ∧ length change = length year_range
    ∧ ∀ (i : nat) (year : Z), year_range !! i = Some year →
        ∃ b v : float,
          (∀ fr, outputs <$> year_body key levels beta fr year = Some (b, v))
          ∧ baseline !! i = Some b
          ∧ intervention !! i = Some v
          ∧ change !! i = Some (v - b)%float.
Proof.
  intros Hkey Hdf Hcol Hrun.
  destruct (intervention_body_usable _ _ _ _ _ _ _ _ _ _ Hkey Hdf Hcol Hrun)
    as (outs & Hall & Hres & _ & _).
  destruct (col_names_differ d d) as (Hbi & Hbc & Hic).
  exists outs.*1, outs.*2, ((λ o, (o.2 - o.1)%float) <$> outs).
  rewrite Hres. repeat split.
  - rewrite column_set_column_ne by done.
    rewrite column_set_column_ne by done.
    apply column_set_column_eq.
  - rewrite column_set_column_ne by done.
    apply column_set_column_eq.
  - apply column_set_column_eq.
  - by rewrite diff_values_outs.
  - rewrite length_fmap. symmetry. by eapply Forall2_length.
  - intros i year Hi.
    destruct (Forall2_lookup_l _ _ _ _ _ Hall Hi) as ([b v] & Ho & Hpred).
    exists b, v. rewrite !list_lookup_fmap, Ho. repeat split.
    intros fr. by rewrite year_body_predict.
Qed.

Lemma change_is_intervention_minus_baseline_witness :
  ∃ st' : RunState,
    intervention_body df_dict_P2 "p_diabe_all" {["pdiabe" := 0.85%float]} [2026; 2028]
      initial_state "Diabetes Incidence Reduction" = Some st'
    ∧ ∃ baseline intervention change : list float,
        column (results_df st') (col_baseline "Diabetes Incidence Reduction")
        = Some baseline
        ∧ column (results_df st') (col_intervention "Diabetes Incidence Reduction")
          = Some intervention
        ∧ column (results_df st') (col_change "Diabetes Incidence Reduction")
          = Some change
        ∧ change = diff_values intervention baseline
        ∧ length change = length [2026; 2028]
        ∧ ∀ (i : nat) (year : Z), [2026; 2028] !! i = Some year →
            ∃ b v : float,
              (∀ fr, outputs <$> year_body "pdiabe" {["pdiabe" := 0.85%float]}
                                   beta_P2 fr year = Some (b, v))
              ∧ baseline !! i = Some b
              ∧ intervention !! i = Some v
              ∧ change !! i = Some (v - b)%float.
Proof.
  eexists. split; [vm_compute; reflexivity|].
  apply (change_is_intervention_minus_baseline df_dict_P2 "p_diabe_all"
           {["pdiabe" := 0.85%float]} [2026; 2028] initial_state _
           "Diabetes Incidence Reduction" "pdiabe" (<["p_diabe_all" := beta_P2]> ∅)
           beta_P2);
    vm_compute; reflexivity.
Defined.

(** *** The sliders cover the selection *)

Lemma levels_step_spec (slider : string → float) (lv : gmap string float) (d : string) :
  is_Some (subscript INTERVENTION_OPTIONS d) →
  ∃ lv', levels_step slider lv d = Some lv'
    ∧ (∀ k, is_Some (lv !! k) → is_Some (lv' !! k))
    ∧ levels_cover lv' d.
Proof.
  intros [key Hkey]. unfold levels_step. rewrite Hkey. simpl.
  case_decide as Hp; eexists; (split; [reflexivity|]); split.
  - intros k Hk. rewrite !lookup_insert_is_Some'. auto.
  - exists key. split; [done|]. rewrite decide_True by done.
    rewrite !lookup_insert_is_Some'. auto.
  - intros k Hk. rewrite lookup_insert_is_Some'. auto.
  - exists key. split; [done|]. rewrite decide_False by done.
    rewrite lookup_insert_is_Some'. auto.
Qed.

Lemma levels_cover_mono (lv lv' : gmap string float) (d : string) :
  (∀ k, is_Some (lv !! k) → is_Some (lv' !! k)) →
  levels_cover lv d → levels_cover lv' d.
Proof.
  intros Hmono (key & Hkey & Hlev). exists key. split; [done|].
  case_decide; [destruct Hlev|]; auto.
Qed.

Lemma levels_loop_cover (slider : string → float) (sel : list string) :
  Forall (λ d, is_Some (subscript INTERVENTION_OPTIONS d)) sel →
  ∀ lv : gmap string float,
    ∃ lv', levels_loop slider lv sel = Some lv'
      ∧ (∀ k, is_Some (lv !! k) → is_Some (lv' !! k))
      ∧ Forall (levels_cover lv') sel.
Proof.
  induction 1 as [|d sel Hd Hsel IH]; intros lv; simpl.
  - exists lv. auto.
  - destruct (levels_step_spec slider lv d Hd) as (lv1 & -> & Hmono1 & Hcov1).
    simpl. destruct (IH lv1) as (lv' & Hloop & Hmono & Hcov).
    exists lv'. split; [done|]. split; [auto|].
    constructor; [|done]. by eapply levels_cover_mono.
Qed.

(** *** Skipping and stopping *)

Lemma year_loop_total (key : string) (levels beta : gmap string float) (years : list Z) :
  (if decide (key = "pcogstate")
   then is_Some (levels !! "pcogstate_1") ∧ is_Some (levels !! "pcogstate_2")
   else is_Some (levels !! key)) →
  ∀ fr, is_Some (year_loop key levels beta fr years).
Proof.
  intros Hlev. induction years as [|year rest IH]; intros fr; simpl; [done|].
  destruct (proj2 (year_body_is_Some key levels beta fr year) Hlev) as [fr1 ->].
  simpl. apply IH.
Qed.

Section intervention_loop.
Context (df_dict : gmap string (gmap string (gmap string float))).
Context (target_col : string) (levels : gmap string float) (year_range : list Z).

Lemma intervention_body_total (st : RunState) (d : string) :
  levels_cover levels d →
  is_Some (intervention_body df_dict target_col levels year_range st d).
Proof.
  intros (key & Hkey & Hlev). unfold intervention_body. rewrite Hkey. simpl.
  destruct (df_dict !! key) as [df|]; [|done].
  destruct (df !! target_col) as [beta|]; [|done].
  destruct (year_loop_total key levels beta year_range Hlev (reset_lists (locals st)))
    as [fr ->].
  done.
Qed.

Lemma intervention_body_page (st st' : RunState) (d : string) :
  intervention_body df_dict target_col levels year_range st d = Some st' →
  page st' = page st ++ (st_error <$> option_list (report df_dict target_col d)).
Proof.
  unfold intervention_body, report.
  destruct (subscript INTERVENTION_OPTIONS d) as [key|]; [|done]. simpl.
  destruct (df_dict !! key) as [df|]; [|by intros [= <-]].
  destruct (df !! target_col) as [beta|]; [|by intros [= <-]].
  destruct (year_loop _ _ _ _ _); [|done]. simpl. intros [= <-]. simpl.
  by rewrite app_nil_r.
Qed.

Lemma intervention_body_unusable (st st' : RunState) (d : string) :
  ¬ usable df_dict target_col d →
  intervention_body df_dict target_col levels year_range st d = Some st' →
  same_data st' st ∧ is_Some (report df_dict target_col d).
Proof.
  unfold usable, selected_column, intervention_body, report.
  destruct (subscript INTERVENTION_OPTIONS d) as [key|]; [|done]. simpl.
  destruct (df_dict !! key) as [df|]; simpl; [|by intros _ [= <-]].
  destruct (df !! target_col) as [beta|]; [|by intros _ [= <-]].
  intros []. done.
Qed.

Lemma intervention_body_usable_valid (st st' : RunState) (d : string) :
  usable df_dict target_col d →
  intervention_body df_dict target_col levels year_range st d = Some st' →
  valid_plot st' = true ∧ report df_dict target_col d = None.
Proof.
  unfold usable, selected_column, intervention_body, report.
  destruct (subscript INTERVENTION_OPTIONS d) as [key|]; simpl;
    [|by intros ?%is_Some_None].
  destruct (df_dict !! key) as [df|]; simpl; [|by intros ?%is_Some_None].
  destruct (df !! target_col) as [beta|]; [|by intros ?%is_Some_None].
  intros _. destruct (year_loop _ _ _ _ _); [|done]. simpl. by intros [= <-].
Qed.

Lemma intervention_body_same_data (st1 st2 st1' : RunState) (d : string) :
  same_data st1 st2 →
  intervention_body df_dict target_col levels year_range st1 d = Some st1' →
  ∃ st2', intervention_body df_dict target_col levels year_range st2 d = Some st2'
    ∧ same_data st1' st2'.
Proof.
  intros (Hl & Hr & Hv). unfold intervention_body.
  destruct (subscript INTERVENTION_OPTIONS d) as [key|]; [|done]. simpl.
  destruct (df_dict !! key) as [df|];
    [|intros [= <-]; eexists; split; [done|]; by repeat split].
  destruct (df !! target_col) as [beta|];
    [|intros [= <-]; eexists; split; [done|]; by repeat split].
  rewrite <-Hl, <-Hr.
  destruct (year_loop _ _ _ _ _); [|done]. simpl. intros [= <-].
  eexists. split; [done|]. by repeat split.
Qed.

(** The loop gives the data the usable interventions alone give, and
    one report for each of the others, in order. *)
Lemma intervention_loop_skip (sel : list string) :
  ∀ st1 st2 st1' : RunState,
    same_data st1 st2 →
    intervention_loop df_dict target_col levels year_range st1 sel = Some st1' →
    ∃ st2',
      intervention_loop df_dict target_col levels year_range st2
        (filter (usable df_dict target_col) sel) = Some st2'
      ∧ same_data st1' st2'
      ∧ page st2' = page st2
      ∧ page st1' = page st1 ++ (st_error <$> omap (report df_dict target_col) sel).
Proof.
  induction sel as [|d sel IH]; intros st1 st2 st1' Hsame; simpl.
  - intros [= <-]. exists st2. by rewrite app_nil_r.
  - destruct (intervention_body df_dict target_col levels year_range st1 d)
      as [st1a|] eqn:E1; [|done].
    simpl. intros Hrest.
    pose proof (intervention_body_page _ _ _ E1) as Hpage1.
    destruct (decide (usable df_dict target_col d)) as [Hu|Hu].
    + rewrite filter_cons_True by done. simpl.
      destruct (intervention_body_same_data _ _ _ _ Hsame E1) as (st2a & E2 & Hsame').
      rewrite E2. simpl.
      destruct (intervention_body_usable_valid _ _ _ Hu E1) as [_ Hrep1].
      pose proof (intervention_body_page _ _ _ E2) as Hpage2.
      rewrite Hrep1 in *. simpl in *. rewrite app_nil_r in *.
      destruct (IH _ _ _ Hsame' Hrest) as (st2' & Hloop & Hs & Hp2 & Hp1).
      exists st2'. split; [done|]. split; [done|]. split; [congruence|].
      by rewrite Hp1, Hpage1.
    + rewrite filter_cons_False by done.
      destruct (intervention_body_unusable _ _ _ Hu E1) as [Hsame1 [msg Hmsg]].
      assert (same_data st1a st2) as Hsame'.
      { destruct Hsame1 as (? & ? & ?), Hsame as (? & ? & ?).
        repeat split; congruence. }
      destruct (IH _ _ _ Hsame' Hrest) as (st2' & Hloop & Hs & Hp2 & Hp1).
      exists st2'. split; [done|]. split; [done|]. split; [done|].
      rewrite Hp1, Hpage1, Hmsg. simpl. by rewrite <-app_assoc.
Qed.

Lemma intervention_loop_total (sel : list string) :
  Forall (levels_cover levels) sel →
  ∀ st, is_Some (intervention_loop df_dict target_col levels year_range st sel).
Proof.
  induction 1 as [|d sel Hd Hsel IH]; intros st; simpl; [done|].
  destruct (intervention_body_total st d Hd) as [st1 ->]. simpl. apply IH.
Qed.

Lemma intervention_loop_valid_plot (sel : list string) :
  ∀ st st' : RunState,
    intervention_loop df_dict target_col levels year_range st sel = Some st' →
    valid_plot st' = valid_plot st || bool_decide (Exists (usable df_dict target_col) sel).
Proof.
  induction sel as [|d sel IH]; intros st st' Hloop; simpl in Hloop.
  - injection Hloop as <-.
    rewrite bool_decide_eq_false_2; [by rewrite orb_false_r|].
    by intros ?%Exists_nil.
  - destruct (intervention_body df_dict target_col levels year_range st d)
      as [st1|] eqn:E1; [|done].
    simpl in Hloop. rewrite (IH _ _ Hloop).
    destruct (decide (usable df_dict target_col d)) as [Hu|Hu].
    + destruct (intervention_body_usable_valid _ _ _ Hu E1) as [-> _].
      rewrite (bool_decide_eq_true_2 (Exists _ (d :: sel))); [|by left].
      by rewrite orb_true_r.
    + destruct (intervention_body_unusable _ _ _ Hu E1) as [(_ & _ & ->) _].
      f_equal. apply bool_decide_ext. rewrite Exists_cons. tauto.
Qed.

End intervention_loop.

(** *** The columns of the selected interventions *)

Lemma string_app_paren_inj (s t : string) : s +:+ ")" = t +:+ ")" → s = t.
Proof.
  revert t. induction s as [|c s IH]; intros [|c' t]; simpl; try done.
  - intros [= <- H]. by destruct t.
  - intros [= -> H]. by destruct s.
  - intros [= -> H]. f_equal. by apply IH.
Qed.

Lemma col_names_inj (d d' : string) :
  (col_baseline d = col_baseline d' → d = d')
  ∧ (col_intervention d = col_intervention d' → d = d')
  ∧ (col_change d = col_change d' → d = d').
Proof.
  unfold col_baseline, col_intervention, col_change. simpl.
  repeat split; intros [= H]; by apply string_app_paren_inj.
Qed.

Lemma predict_series_unique (key : string) (levels beta : gmap string float)
    (years : list Z) (outs outs' : list (float * float)) :
  Forall2 (λ year o, Spec.predict key levels beta year = Some o) years outs →
  Forall2 (λ year o, Spec.predict key levels beta year = Some o) years outs' →
  outs = outs'.
Proof.
  intros H1%mapM_Some H2%mapM_Some. congruence.
Qed.

Section columns.
Context (df_dict : gmap string (gmap string (gmap string float))).
Context (target_col : string) (levels : gmap string float) (year_range : list Z).

Lemma intervention_body_other_columns (st st' : RunState) (d : string) (n : string) :
  intervention_body df_dict target_col levels year_range st d = Some st' →
  n ≠ col_baseline d → n ≠ col_intervention d → n ≠ col_change d →
  column (results_df st') n = column (results_df st) n.
Proof.
  intros Hrun Hb Hi Hc.
  destruct (decide (usable df_dict target_col d)) as [Hu|Hu].
  - destruct Hu as [beta Hbeta]. unfold selected_column in Hbeta.
    destruct (subscript INTERVENTION_OPTIONS d) as [key|] eqn:Hkey; [|done].
    simpl in Hbeta.
    destruct (df_dict !! key) as [df|] eqn:Hdf; [|done]. simpl in Hbeta.
    destruct (intervention_body_usable _ _ _ _ _ _ _ _ _ _ Hkey Hdf Hbeta Hrun)
      as (outs & _ & -> & _).
    by rewrite !column_set_column_ne.
  - destruct (intervention_body_unusable _ _ _ _ _ _ _ Hu Hrun) as [(_ & -> & _) _].
    done.
Qed.

Lemma intervention_body_own_columns (st st' : RunState) (d key : string)
    (beta : gmap string float) (outs : list (float * float)) :
  subscript INTERVENTION_OPTIONS d = Some key →
  selected_column df_dict target_col d = Some beta →
  Forall2 (λ year o, Spec.predict key levels beta year = Some o) year_range outs →
  intervention_body df_dict target_col levels year_range st d = Some st' →
  columns_hold (results_df st') d outs.
Proof.
  intros Hkey Hbeta Houts Hrun. unfold selected_column in Hbeta.
  rewrite Hkey in Hbeta. simpl in Hbeta.
  destruct (df_dict !! key) as [df|] eqn:Hdf; [|done]. simpl in Hbeta.
  destruct (intervention_body_usable _ _ _ _ _ _ _ _ _ _ Hkey Hdf Hbeta Hrun)
    as (outs' & Houts' & -> & _).
  rewrite (predict_series_unique _ _ _ _ _ _ Houts Houts').
  destruct (col_names_differ d d) as (Hbi & Hbc & Hic).
  unfold columns_hold. rewrite diff_values_outs. repeat split.
  - rewrite !column_set_column_ne by done. apply column_set_column_eq.
  - rewrite column_set_column_ne by done. apply column_set_column_eq.
  - apply column_set_column_eq.
Qed.

Lemma names_of_other_intervention (d d' : string) :
  d ≠ d' →
  ∀ n, n = col_baseline d ∨ n = col_intervention d ∨ n = col_change d →
    n ≠ col_baseline d' ∧ n ≠ col_intervention d' ∧ n ≠ col_change d'.
Proof.
  intros Hne n Hn.
  destruct (col_names_inj d d') as (Ib & Ii & Ic).
  destruct (col_names_differ d d') as (Dbi & Dbc & Dic).
  destruct (col_names_differ d' d) as (Dbi' & Dbc' & Dic').
  destruct Hn as [-> | [-> | ->]]; repeat split; intros E; auto; congruence.
Qed.

Lemma intervention_loop_columns_hold (sel : list string) (d key : string)
    (beta : gmap string float) (outs : list (float * float)) :
  subscript INTERVENTION_OPTIONS d = Some key →
  selected_column df_dict target_col d = Some beta →
  Forall2 (λ year o, Spec.predict key levels beta year = Some o) year_range outs →
  ∀ st st' : RunState,
    intervention_loop df_dict target_col levels year_range st sel = Some st' →
    d ∈ sel ∨ columns_hold (results_df st) d outs →
    columns_hold (results_df st') d outs.
Proof.
  intros Hkey Hbeta Houts.
  induction sel as [|d' sel IH]; intros st st' Hloop Hd; simpl in Hloop.
  - injection Hloop as <-. destruct Hd as [Hd|Hd]; [|done]. by apply elem_of_nil in Hd.
  - destruct (intervention_body df_dict target_col levels year_range st d')
      as [st1|] eqn:E1; [|done].
    simpl in Hloop. apply (IH _ _ Hloop).
    destruct (decide (d' = d)) as [->|Hne].
    + right. by eapply intervention_body_own_columns.
    + destruct Hd as [Hd|Hd].
      * apply elem_of_cons in Hd as [->|Hd]; [done|by left].
      * right. destruct Hd as (Hb & Hi & Hc). unfold columns_hold.
        assert (d ≠ d') as Hne' by congruence.
        pose proof (names_of_other_intervention d d' Hne') as Hn.
        rewrite !(intervention_body_other_columns _ _ _ _ E1);
          try (apply Hn; auto). done.
Qed.

Lemma intervention_loop_no_columns (sel : list string) (d : string) :
  ¬ usable df_dict target_col d →
  ∀ st st' : RunState,
    intervention_loop df_dict target_col levels year_range st sel = Some st' →
    no_columns (results_df st) d →
    no_columns (results_df st') d.
Proof.
  intros Hu.
  induction sel as [|d' sel IH]; intros st st' Hloop Hd; simpl in Hloop.
  - by injection Hloop as <-.
  - destruct (intervention_body df_dict target_col levels year_range st d')
      as [st1|] eqn:E1; [|done].
    simpl in Hloop. apply (IH _ _ Hloop).
    destruct (decide (d' = d)) as [->|Hne].
    + destruct (intervention_body_unusable _ _ _ _ _ _ _ Hu E1) as [(_ & -> & _) _].
      done.
    + destruct Hd as (Hb & Hi & Hc). unfold no_columns.
      assert (d ≠ d') as Hne' by congruence.
      pose proof (names_of_other_intervention d d' Hne') as Hn.
      rewrite !(intervention_body_other_columns _ _ _ _ E1);
        try (apply Hn; auto). done.
Qed.

End columns.

(** *** The figures *)

Lemma fig_body_total (str_float : float → string) (levels : gmap string float)
    (df : list (string * list float)) (years : list Z) (selected_outcome : string)
    (fig : list Scatter) (i : nat) (d : string) :
  levels_cover levels d →
  is_Some (fig_body str_float levels df years selected_outcome fig i d).
Proof.
  intros (key & Hkey & Hlev). unfold fig_body. rewrite Hkey. simpl.
  case_decide.
  - destruct Hlev as [[l1 ->] [l2 ->]]. done.
  - destruct Hlev as [l ->]. done.
Qed.

Lemma fig_loop_total (str_float : float → string) (levels : gmap string float)
    (df : list (string * list float)) (years : list Z) (selected_outcome : string)
    (sel : list string) :
  Forall (levels_cover levels) sel →
  ∀ fig i, is_Some (fig_loop str_float levels df years selected_outcome fig i sel).
Proof.
  induction 1 as [|d sel Hd Hsel IH]; intros fig i; simpl; [done|].
  destruct (fig_body_total str_float levels df years selected_outcome fig i d Hd)
    as [fig' ->].
  simpl. apply IH.
Qed.

Lemma predict_series_total (key : string) (levels beta : gmap string float)
    (years : list Z) :
  (if decide (key = "pcogstate")
   then is_Some (levels !! "pcogstate_1") ∧ is_Some (levels !! "pcogstate_2")
   else is_Some (levels !! key)) →
  ∃ outs, Forall2 (λ year o, Spec.predict key levels beta year = Some o) years outs.
Proof.
  intros Hlev.
  destruct (mapM_is_Some_2 (Spec.predict key levels beta) years) as [outs Houts].
  - apply Forall_forall. intros year _. simpl.
    rewrite <-(year_body_predict key levels beta unbound year).
    apply fmap_is_Some. by apply year_body_is_Some.
  - exists outs. by apply mapM_Some.
Qed.

Lemma filter_none {A} (P : A → Prop) `{!∀ a, Decision (P a)} (l : list A) :
  Forall (λ a, ¬ P a) l → filter P l = [].
Proof.
  induction 1 as [|a l Ha Hl IH]; [done|]. by rewrite filter_cons_False.
Qed.

(** C6: in a run over the selected interventions, every intervention
    whose table is not loaded or lacks the selected column is reported
    and leaves no data, while the others are evaluated as if they alone
    had been selected; and when none is usable the script stops with the
    reports only: no chart and no column. *)
Theorem unusable_interventions_skipped
    (str_float : float → string)
    (df_dict : gmap string (gmap string (gmap string float)))
    (slider : string → float)
    (selected_outcome selected_subgroup : string) (sel : list string)
    (start_year end_year : Z) (outcome_code subgroup_code : string) :
  subscript OUTCOME_OPTIONS selected_outcome = Some outcome_code →
  subscript SUBGROUP_OPTIONS selected_subgroup = Some subgroup_code →
  Forall (λ d, is_Some (subscript INTERVENTION_OPTIONS d)) sel →
  let target_col := outcome_code +:+ "_" +:+ subgroup_code in
  let year_range := range2 start_year (end_year + 1) in
  let result :=
    run str_float df_dict slider selected_outcome selected_subgroup sel
      start_year end_year in
  ∃ (levels : gmap string float) (st st_ok : RunState),
    levels_loop slider ∅ sel = Some levels
    ∧ intervention_loop df_dict target_col levels year_range initial_state sel = Some st
    ∧ page st = st_error <$> omap (report df_dict target_col) sel
    ∧ (∀ d, d ∈ sel → ¬ usable df_dict target_col d →
         is_Some (report df_dict target_col d) ∧ no_columns (results_df st) d)
    ∧ intervention_loop df_dict target_col levels year_range initial_state
        (filter (usable df_dict target_col) sel) = Some st_ok
    ∧ same_data st st_ok
    ∧ page st_ok = []
    ∧ (∀ d key beta, d ∈ sel →
         subscript INTERVENTION_OPTIONS d = Some key →
         selected_column df_dict target_col d = Some beta →
         ∃ outs,
           Forall2 (λ year o, Spec.predict key levels beta year = Some o) year_range outs
           ∧ columns_hold (results_df st) d outs)
    ∧ (Forall (λ d, ¬ usable df_dict target_col d) sel →
         result = Some (Stopped (page st))
         ∧ Forall (λ e, ¬ is_chart_output e) (page st)
         ∧ results_df st = [])
    ∧ (Exists (usable df_dict target_col) sel →
         ∃ fig fig_diff,
           result = Some (Completed (page st ++
                      [ st_subheader ("Projected " +:+ selected_outcome);
                        st_plotly_chart fig;
                        st_subheader "Change from Baseline";
                        st_plotly_chart fig_diff ]))).
Proof.
  intros Hout Hsub Hsel target_col year_range result.
  destruct (levels_loop_cover slider sel Hsel ∅) as (levels & Hlev & _ & Hcov).
  destruct (intervention_loop_total df_dict target_col levels year_range sel Hcov
              initial_state) as [st Hloop].
  destruct (intervention_loop_skip df_dict target_col levels year_range sel
              initial_state initial_state st) as (st_ok & Hok & Hsame & Hpok & Hp);
    [done|done|].
  pose proof (intervention_loop_valid_plot _ _ _ _ _ _ _ Hloop) as Hvalid.
  simpl in Hp, Hpok, Hvalid.
  assert (Hrun : result =
    if negb (valid_plot st) then Some (Stopped (page st))
    else
      fig ← fig_loop str_float levels (results_df st) year_range
              selected_outcome [] 0 sel;
      Some (Completed (page st ++
              [ st_subheader ("Projected " +:+ selected_outcome);
                st_plotly_chart fig;
                st_subheader "Change from Baseline";
                st_plotly_chart
                  (fig_diff_loop (results_df st) year_range selected_outcome [] 0 sel) ]))).
  { unfold result, run. rewrite Hlev, Hout, Hsub. cbn [mbind option_bind].
    fold target_col. fold year_range. rewrite Hloop. done. }
  exists levels, st, st_ok.
  split; [done|]. split; [done|]. split; [done|]. split.
  { intros d Hd Hu. split.
    - destruct (intervention_body_total df_dict target_col levels year_range
                  initial_state d) as [st1 H1].
      { by eapply Forall_forall in Hcov. }
      by destruct (intervention_body_unusable _ _ _ _ _ _ _ Hu H1).
    - by eapply intervention_loop_no_columns. }
  split; [done|]. split; [done|]. split; [done|]. split.
  { intros d key beta Hd Hkey Hbeta.
    assert (levels_cover levels d) as (key' & Hkey' & Hlevd).
    { by eapply Forall_forall in Hcov. }
    assert (key' = key) as -> by congruence.
    destruct (predict_series_total key levels beta year_range Hlevd) as [outs Houts].
    exists outs. split; [done|].
    eapply intervention_loop_columns_hold; eauto. }
  split.
  { intros Hnone. split; [|split].
    - rewrite Hrun, Hvalid.
      rewrite bool_decide_eq_false_2; [done|].
      intros Hex. apply Exists_exists in Hex as (d & Hd & Hu).
      by eapply Forall_forall in Hnone.
    - rewrite Hp. apply Forall_fmap, Forall_forall. by intros msg _ [].
    - rewrite (filter_none _ _ Hnone) in Hok. simpl in Hok. injection Hok as <-.
      apply Hsame. }
  intros Hex. rewrite Hrun, Hvalid.
  rewrite bool_decide_eq_true_2 by done. simpl.
  destruct (fig_loop_total str_float levels (results_df st) year_range
              selected_outcome sel Hcov [] 0%nat) as [fig ->].
  simpl. eauto.
Qed.

Lemma unusable_interventions_skipped_witness :
  let sel := ["Diabetes Incidence Reduction"; "Heart Disease Incidence Reduction";
              "Hypertension Incidence Reduction"] in
  let target_col := "p_diabe" +:+ "_" +:+ "all" in
  let year_range := range2 2026 (2030 + 1) in
  let result :=
    run (λ _, "0.85") df_dict_P2 slider_default "Diabetes Prevalence (%)" "All" sel
      2026 2030 in
  ∃ (levels : gmap string float) (st st_ok : RunState),
    levels_loop slider_default ∅ sel = Some levels
    ∧ intervention_loop df_dict_P2 target_col levels year_range initial_state sel = Some st
    ∧ page st = st_error <$> omap (report df_dict_P2 target_col) sel
    ∧ (∀ d, d ∈ sel → ¬ usable df_dict_P2 target_col d →
         is_Some (report df_dict_P2 target_col d) ∧ no_columns (results_df st) d)
    ∧ intervention_loop df_dict_P2 target_col levels year_range initial_state
        (filter (usable df_dict_P2 target_col) sel) = Some st_ok
    ∧ same_data st st_ok
    ∧ page st_ok = []
    ∧ (∀ d key beta, d ∈ sel →
         subscript INTERVENTION_OPTIONS d = Some key →
         selected_column df_dict_P2 target_col d = Some beta →
         ∃ outs,
           Forall2 (λ year o, Spec.predict key levels beta year = Some o) year_range outs
           ∧ columns_hold (results_df st) d outs)
    ∧ (Forall (λ d, ¬ usable df_dict_P2 target_col d) sel →
         result = Some (Stopped (page st))
         ∧ Forall (λ e, ¬ is_chart_output e) (page st)
         ∧ results_df st = [])
    ∧ (Exists (usable df_dict_P2 target_col) sel →
         ∃ fig fig_diff,
           result = Some (Completed (page st ++
                      [ st_subheader ("Projected " +:+ "Diabetes Prevalence (%)");
                        st_plotly_chart fig;
                        st_subheader "Change from Baseline";
                        st_plotly_chart fig_diff ]))).
Proof.
  apply (unusable_interventions_skipped (λ _, "0.85") df_dict_P2 slider_default
           "Diabetes Prevalence (%)" "All"
           ["Diabetes Incidence Reduction"; "Heart Disease Incidence Reduction";
            "Hypertension Incidence Reduction"]
           2026 2030 "p_diabe" "all").
  - reflexivity.
  - reflexivity.
  - apply (bool_decide_unpack _). vm_compute. exact I.
Defined.

(** A run with one usable intervention and two reported ones. *)
Example run_reports_and_charts :
  ∃ fig fig_diff,
    run (λ _, "0.85") df_dict_P2 slider_default "Diabetes Prevalence (%)" "All"
      ["Diabetes Incidence Reduction"; "Heart Disease Incidence Reduction";
       "Hypertension Incidence Reduction"] 2026 2026
    = Some (Completed
        [ st_error "Dataset for phearte not loaded.";
          st_error "Column 'p_diabe_all' not found in phibpe dataset.";
          st_subheader "Projected Diabetes Prevalence (%)";
          st_plotly_chart fig;
          st_subheader "Change from Baseline";
          st_plotly_chart fig_diff ])
    ∧ y <$> fig = [[650%float]; [717.5%float]]
    ∧ name <$> fig = ["<b>Baseline:</b> Diabetes Incidence Reduction";
                      "<b>Intervention:</b> Diabetes Incidence Reduction (Level=0.85)"]
    ∧ y <$> fig_diff = [[67.499999999999986%float]].
Proof.
  eexists _, _. split; [vm_compute; reflexivity|].
  repeat split; vm_compute; reflexivity.
Qed.

(** With no usable intervention the script stops after the reports. *)
Example run_stops_early :
  run (λ _, "0.85") df_dict_P2 slider_default "Diabetes Prevalence (%)" "All"
    ["Heart Disease Incidence Reduction"; "Hypertension Incidence Reduction"] 2026 2050
  = Some (Stopped
      [ st_error "Dataset for phearte not loaded.";
        st_error "Column 'p_diabe_all' not found in phibpe dataset." ]).
Proof. vm_compute. reflexivity. Qed.

(** The year range of the default slider positions. *)
Example year_range_default :
  range2 2026 (2050 + 1)
  = [2026; 2028; 2030; 2032; 2034; 2036; 2038; 2040; 2042; 2044; 2046; 2048; 2050].
Proof. reflexivity. Qed.

(** *** Variant selection and purity on the worked examples *)

Lemma variant_selection_witness :
  outputs <$> year_body "pcogstate" levels_one beta_P8 unbound 2026
  = Some (Spec.two_level beta_P8 2026 1.0 1.0)
  ∧ outputs <$> year_body "pdiabe" {["pdiabe" := 0.85%float]} beta_P8 unbound 2026
    = Some (Spec.single_level beta_P8 2026 0.85)
  ∧ year_body "pdiabe" {["pdiabe" := 0.85%float]} beta_P2 unbound 2026
    = year_body "pdiabe" {["pdiabe" := 0.85%float]} beta_P8 unbound 2026.
Proof.
  split; [|split].
  - apply (proj1 (variant_selection "pcogstate" levels_one beta_P8 unbound 2026));
      reflexivity.
  - apply (proj2 (variant_selection "pdiabe" {["pdiabe" := 0.85%float]} beta_P8
                    unbound 2026)); [discriminate|reflexivity].
  - apply (proj2 (variant_selection "pdiabe" {["pdiabe" := 0.85%float]} beta_P8
                    unbound 2026) ltac:(discriminate) 0.85%float eq_refl).
    intros k Hk. unfold beta_P8.
    rewrite !lookup_insert_ne; [done|..]; intros <-; apply Hk.
    + right. right. right. by exists 2.
    + right. by left.
    + right. right. left. by exists 2.
    + by left.
Defined.

Lemma predictor_is_pure_witness :
  outputs <$> year_body "pdiabe" {["pdiabe" := 0.85%float]} beta_P2 unbound 2026
  = outputs <$> year_body "pdiabe" {["pdiabe" := 0.85%float]} beta_P2
                  (mkLocals 7 1 2 3 4 5 6 7 8 9 10 11 12 [1%float] [2%float]) 2026.
Proof.
  apply (proj1 (predictor_is_pure "pdiabe" {["pdiabe" := 0.85%float]} beta_P2 2026)).
Defined.

(** ** The cleaning functions of [clean_data.py] *)

Section strip.
Context (chars : N → bool).

Lemma lstrip_decompose (s : list N) :
  ∃ a, s = a ++ CleanData.lstrip chars s ∧ Forall (λ c, chars c = true) a.
Proof.
  induction s as [|c s (a & Hs & Ha)]; simpl.
  - by exists [].
  - destruct (chars c) eqn:Hc.
    + exists (c :: a). split; [by rewrite Hs at 1|]. by constructor.
    + by exists [].
Qed.

Lemma lstrip_head (s : list N) :
  ∀ c, head (CleanData.lstrip chars s) = Some c → chars c = false.
Proof.
  induction s as [|c' s IH]; simpl; [done|].
  destruct (chars c') eqn:Hc; [done|]. by intros c [= <-].
Qed.

Lemma lstrip_app_chars (a s : list N) :
  Forall (λ c, chars c = true) a →
  CleanData.lstrip chars (a ++ s) = CleanData.lstrip chars s.
Proof. induction 1 as [|c a Hc Ha IH]; simpl; [done|]. by rewrite Hc. Qed.

Lemma lstrip_keep (s : list N) :
  (∀ c, head s = Some c → chars c = false) →
  CleanData.lstrip chars s = s.
Proof. destruct s as [|c s]; simpl; [done|]. intros H. by rewrite (H c). Qed.

Lemma lstrip_last (s : list N) :
  (∀ c, last s = Some c → chars c = false) →
  ∀ c, last (CleanData.lstrip chars s) = Some c → chars c = false.
Proof.
  induction s as [|c' s IH]; simpl; [done|]. intros Hlast.
  destruct (chars c') eqn:Hc; [|done].
  apply IH. intros c Hs. apply Hlast. destruct s; [done|]. done.
Qed.

Lemma rstrip_decompose (s : list N) :
  ∃ b, s = CleanData.rstrip chars s ++ b ∧ Forall (λ c, chars c = true) b.
Proof.
  unfold CleanData.rstrip.
  destruct (lstrip_decompose (reverse s)) as (a & Hs & Ha).
  exists (reverse a). split; [|by apply Forall_reverse].
  rewrite <-reverse_app, <-Hs. by rewrite reverse_involutive.
Qed.

Lemma rstrip_last (s : list N) :
  ∀ c, last (CleanData.rstrip chars s) = Some c → chars c = false.
Proof.
  intros c. unfold CleanData.rstrip. rewrite last_reverse. apply lstrip_head.
Qed.

Lemma rstrip_app_chars (s b : list N) :
  Forall (λ c, chars c = true) b →
  CleanData.rstrip chars (s ++ b) = CleanData.rstrip chars s.
Proof.
  intros Hb. unfold CleanData.rstrip.
  rewrite reverse_app, lstrip_app_chars; [done|]. by apply Forall_reverse.
Qed.

Lemma rstrip_keep (s : list N) :
  (∀ c, last s = Some c → chars c = false) →
  CleanData.rstrip chars s = s.
Proof.
  intros H. unfold CleanData.rstrip. rewrite lstrip_keep.
  - apply reverse_involutive.
  - intros c. rewrite head_reverse. apply H.
Qed.

Lemma rstrip_head (s : list N) :
  (∀ c, head s = Some c → chars c = false) →
  ∀ c, head (CleanData.rstrip chars s) = Some c → chars c = false.
Proof.
  intros Hs c. unfold CleanData.rstrip. rewrite head_reverse.
  apply lstrip_last. intros c'. rewrite last_reverse. apply Hs.
Qed.

Lemma strip_decompose (s : list N) :
  ∃ a b, s = a ++ CleanData.strip chars s ++ b
    ∧ Forall (λ c, chars c = true) a ∧ Forall (λ c, chars c = true) b.
Proof.
  unfold CleanData.strip.
  destruct (lstrip_decompose s) as (a & Hs & Ha).
  destruct (rstrip_decompose (CleanData.lstrip chars s)) as (b & Hl & Hb).
  exists a, b. split; [|done]. by rewrite <-Hl.
Qed.

Lemma strip_ends (s : list N) :
  (∀ c, head (CleanData.strip chars s) = Some c → chars c = false)
  ∧ (∀ c, last (CleanData.strip chars s) = Some c → chars c = false).
Proof.
  unfold CleanData.strip. split.
  - apply rstrip_head, lstrip_head.
  - apply rstrip_last.
Qed.

Lemma strip_keep (s : list N) :
  (∀ c, head s = Some c → chars c = false) →
  (∀ c, last s = Some c → chars c = false) →
  CleanData.strip chars s = s.
Proof.
  intros Hh Hl. unfold CleanData.strip. rewrite lstrip_keep by done.
  by apply rstrip_keep.
Qed.

Lemma strip_idempotent (s : list N) :
  CleanData.strip chars (CleanData.strip chars s) = CleanData.strip chars s.
Proof. destruct (strip_ends s). by apply strip_keep. Qed.

Lemma strip_surrounded (a s b : list N) :
  Forall (λ c, chars c = true) a →
  Forall (λ c, chars c = true) b →
  (∀ c, head s = Some c → chars c = false) →
  (∀ c, last s = Some c → chars c = false) →
  s ≠ [] →
  CleanData.strip chars (a ++ s ++ b) = s.
Proof.
  intros Ha Hb Hh Hl Hne. unfold CleanData.strip.
  rewrite lstrip_app_chars by done.
  rewrite lstrip_keep.
  - rewrite rstrip_app_chars by done. by apply rstrip_keep.
  - intros c. destruct s; [done|]. simpl. apply Hh.
Qed.

End strip.

Lemma startswith_true (s p : list N) :
  CleanData.startswith s p = true ↔ ∃ rest, s = p ++ rest.
Proof.
  unfold CleanData.startswith. rewrite bool_decide_eq_true. split.
  - intros H. exists (drop (length p) s).
    transitivity (take (length p) s ++ drop (length p) s).
    + by rewrite take_drop.
    + by rewrite H.
  - intros [rest ->]. by rewrite take_app_length.
Qed.

Lemma endswith_true (s p : list N) :
  CleanData.endswith s p = true ↔ ∃ front, s = front ++ p.
Proof.
  unfold CleanData.endswith. rewrite bool_decide_eq_true. split.
  - intros [H _]. exists (take (length s - length p) s).
    transitivity (take (length s - length p) s ++ drop (length s - length p) s).
    + by rewrite take_drop.
    + by rewrite H.
  - intros [front ->]. rewrite length_app. split; [|lia].
    replace (length front + length p - length p)%nat with (length front) by lia.
    by rewrite drop_app_length.
Qed.

Lemma slice_2_m1_wrapped (a b c : N) (s : list N) :
  CleanData.slice_2_m1 ([a; b] ++ s ++ [c]) = s.
Proof.
  unfold CleanData.slice_2_m1.
  replace (length ([a; b] ++ s ++ [c]) - 1)%nat with (length ([a; b] ++ s)).
  - rewrite (assoc_L (++)), take_app_length. done.
  - rewrite !length_app. simpl. lia.
Qed.

Lemma slice_2_m1_infix (s : list N) :
  ∃ a b, s = a ++ CleanData.slice_2_m1 s ++ b.
Proof.
  unfold CleanData.slice_2_m1.
  exists (take 2 (take (length s - 1) s)), (drop (length s - 1) s).
  by rewrite (assoc_L (++)), !take_drop.
Qed.

Lemma wrapped_shape (s : list N) :
  CleanData.startswith s [CleanData.equals; CleanData.quote]
  && CleanData.endswith s [CleanData.quote] = true →
  s = [CleanData.equals; CleanData.quote]
  ∨ ∃ body, s = [CleanData.equals; CleanData.quote] ++ body ++ [CleanData.quote].
Proof.
  intros [[rest ->]%startswith_true [front Hfront]%endswith_true]%andb_true_iff.
  destruct (decide (rest = [])) as [->|Hne]; [by left|]. right.
  destruct (exists_last Hne) as (body & c & ->).
  exists body. do 2 f_equal.
  rewrite (assoc_L (++)) in Hfront.
  by apply app_inj_tail in Hfront as [_ ->].
Qed.

(** X1: A cell or a column name written as a formula text (an equals sign
    and the text in double quotes, the form a spreadsheet exports text
    in), with any white space around it, is cleaned to the
    text between the quotes: unchanged for a cell, with its own leading
    and trailing quotes removed for a column name. *)
Theorem clean_unwraps_formula_text {V : Type} (ws1 ws2 s : list N) :
  Forall (λ c, CleanData.isspace c = true) ws1 →
  Forall (λ c, CleanData.isspace c = true) ws2 →
  let raw := ws1 ++ ([CleanData.equals; CleanData.quote] ++ s ++ [CleanData.quote]) ++ ws2 in
  @CleanData.clean_cell V (inl raw) = inl s
  ∧ CleanData.clean_column raw = CleanData.strip CleanData.isquote s.
Proof.
  intros Hws1 Hws2 raw.
  assert (CleanData.strip CleanData.isspace raw
          = [CleanData.equals; CleanData.quote] ++ s ++ [CleanData.quote]) as Hstrip.
  { apply strip_surrounded; try done.
    - by intros c [= <-].
    - intros c. rewrite (assoc_L (++)), last_snoc. by intros [= <-]. }
  assert (CleanData.startswith
            ([CleanData.equals; CleanData.quote] ++ s ++ [CleanData.quote])
            [CleanData.equals; CleanData.quote]
          && CleanData.endswith
               ([CleanData.equals; CleanData.quote] ++ s ++ [CleanData.quote])
               [CleanData.quote] = true) as Hwrapped.
  { apply andb_true_iff. split.
    - apply startswith_true. by eexists.
    - apply endswith_true. exists ([CleanData.equals; CleanData.quote] ++ s).
      by rewrite <-(assoc_L (++)). }
  unfold CleanData.clean_cell, CleanData.clean_column. cbv zeta.
  rewrite Hstrip, Hwrapped, slice_2_m1_wrapped. done.
Qed.

Lemma clean_unwraps_formula_text_witness :
  let raw := CleanData.codes " " ++
             ([CleanData.equals; CleanData.quote] ++ CleanData.codes "p_diabe_all"
              ++ [CleanData.quote]) ++ CleanData.codes "  " in
  @CleanData.clean_cell float (inl raw) = inl (CleanData.codes "p_diabe_all")
  ∧ CleanData.clean_column raw
    = CleanData.strip CleanData.isquote (CleanData.codes "p_diabe_all").
Proof.
  apply (@clean_unwraps_formula_text float (CleanData.codes " ")
           (CleanData.codes "  ") (CleanData.codes "p_diabe_all")).
  - apply (bool_decide_unpack _). vm_compute. exact I.
  - apply (bool_decide_unpack _). vm_compute. exact I.
Defined.

(** X2: Cleaning a column name gives what cleaning it as a cell gives, with
    leading and trailing double quotes removed once more. *)
Theorem clean_column_is_clean_cell_unquoted {V : Type} (s : list N) :
  ∃ r, @CleanData.clean_cell V (inl s) = inl r
    ∧ CleanData.clean_column s = CleanData.strip CleanData.isquote r.
Proof.
  unfold CleanData.clean_cell, CleanData.clean_column. cbv zeta.
  destruct (_ && _); eexists; (split; [reflexivity|]); [done|].
  by rewrite strip_idempotent.
Qed.

(** X3: A cleaned column name never begins or ends with a double quote. *)
Theorem clean_column_no_outer_quote (s : list N) :
  head (CleanData.clean_column s) ≠ Some CleanData.quote
  ∧ last (CleanData.clean_column s) ≠ Some CleanData.quote.
Proof.
  unfold CleanData.clean_column. cbv zeta.
  destruct (strip_ends CleanData.isquote
              (if CleanData.startswith (CleanData.strip CleanData.isspace s)
                    [CleanData.equals; CleanData.quote]
                  && CleanData.endswith (CleanData.strip CleanData.isspace s)
                       [CleanData.quote]
               then CleanData.slice_2_m1 (CleanData.strip CleanData.isspace s)
               else CleanData.strip CleanData.isspace s)) as [Hh Hl].
  split; intros H; [apply Hh in H|apply Hl in H]; done.
Qed.

(** A cell may keep outer quotes: the text [a] between two double
    quotes, wrapped once more as a formula text, is cleaned to the
    quoted [a] as a cell and to the bare [a] as a column name. *)
Example clean_cell_keeps_inner_quotes :
  let raw := [CleanData.equals; CleanData.quote; CleanData.quote] ++ CleanData.codes "a"
             ++ [CleanData.quote; CleanData.quote] in
  @CleanData.clean_cell float (inl raw)
  = inl ([CleanData.quote] ++ CleanData.codes "a" ++ [CleanData.quote])
  ∧ CleanData.clean_column raw = CleanData.codes "a".
Proof. split; vm_compute; reflexivity. Qed.

(** An equals sign and one double quote alone count as a wrapped empty
    text: the quote is both the opening and the closing one. *)
Example clean_cell_bare_wrapper :
  @CleanData.clean_cell float (inl [CleanData.equals; CleanData.quote]) = inl [].
Proof. vm_compute. reflexivity. Qed.

(** X4: A text that neither begins nor ends with white space or a double
    quote (a number such as [-0.0123], a row name such as [2.year_inc])
    is left as it is, as a cell and as a column name. *)
Theorem clean_keeps_plain_text {V : Type} (s : list N) :
  (∀ c, head s = Some c → CleanData.isspace c = false ∧ c ≠ CleanData.quote) →
  (∀ c, last s = Some c → CleanData.isspace c = false ∧ c ≠ CleanData.quote) →
  @CleanData.clean_cell V (inl s) = inl s ∧ CleanData.clean_column s = s.
Proof.
  intros Hh Hl.
  assert (CleanData.strip CleanData.isspace s = s) as Hsp.
  { apply strip_keep; intros c Hc; [by apply Hh|by apply Hl]. }
  assert (CleanData.strip CleanData.isquote s = s) as Hq.
  { apply strip_keep; intros c Hc; unfold CleanData.isquote; apply N.eqb_neq;
      [by apply Hh|by apply Hl]. }
  assert (CleanData.endswith s [CleanData.quote] = false) as Hend.
  { apply not_true_is_false. intros [front ->]%endswith_true.
    destruct (Hl CleanData.quote) as [_ []]; [|done]. by rewrite last_snoc. }
  unfold CleanData.clean_cell, CleanData.clean_column. cbv zeta.
  by rewrite Hsp, Hend, andb_false_r, Hq.
Qed.

Lemma clean_keeps_plain_text_witness :
  @CleanData.clean_cell float (inl (CleanData.codes "-0.0123"))
  = inl (CleanData.codes "-0.0123")
  ∧ CleanData.clean_column (CleanData.codes "-0.0123") = CleanData.codes "-0.0123".
Proof.
  apply (@clean_keeps_plain_text float (CleanData.codes "-0.0123")).
  - intros c [= <-]. split; [reflexivity|discriminate].
  - intros c [= <-]. split; [reflexivity|discriminate].
Defined.

Lemma clean_cell_shape {V : Type} (s : list N) :
  ∃ r, @CleanData.clean_cell V (inl s) = inl r
    ∧ CleanData.clean_column s = CleanData.strip CleanData.isquote r
    ∧ ∃ a b, s = a ++ r ++ b.
Proof.
  destruct (strip_decompose CleanData.isspace s) as (a & b & Hs & _).
  unfold CleanData.clean_cell, CleanData.clean_column. cbv zeta.
  destruct (_ && _).
  - eexists. split; [reflexivity|]. split; [done|].
    destruct (slice_2_m1_infix (CleanData.strip CleanData.isspace s)) as (a' & b' & H').
    exists (a ++ a'), (b' ++ b). rewrite Hs at 1. rewrite H' at 1.
    by rewrite <-!(assoc_L (++)).
  - eexists. split; [reflexivity|]. split; [by rewrite strip_idempotent|].
    destruct (strip_decompose CleanData.isquote (CleanData.strip CleanData.isspace s))
      as (a' & b' & H' & _).
    exists (a ++ a'), (b' ++ b). rewrite Hs at 1. rewrite H' at 1.
    by rewrite <-!(assoc_L (++)).
Qed.

Lemma infix_compose (s t u a b a' b' : list N) :
  s = a ++ t ++ b → t = a' ++ u ++ b' → s = (a ++ a') ++ u ++ (b' ++ b).
Proof. intros -> ->. by rewrite <-!(assoc_L (++)). Qed.

(** X5: Cleaning only removes code points from the two ends: the result is a
    contiguous part of the text it was given, so it is never longer. *)
Theorem clean_result_is_part_of_input {V : Type} (s : list N) :
  ∃ r, @CleanData.clean_cell V (inl s) = inl r
    ∧ (∃ a b, s = a ++ r ++ b)
    ∧ (∃ a b, s = a ++ CleanData.clean_column s ++ b)
    ∧ (length r ≤ length s)%nat
    ∧ (length (CleanData.clean_column s) ≤ length r)%nat.
Proof.
  destruct (@clean_cell_shape V s) as (r & Hr & Hcol & Hin).
  exists r. split; [done|].
  destruct Hin as (a & b & Hs).
  destruct (strip_decompose CleanData.isquote r) as (a' & b' & Hr' & _).
  rewrite <-Hcol in Hr'.
  repeat split.
  - by exists a, b.
  - eexists _, _. by eapply infix_compose.
  - apply (f_equal length) in Hs. rewrite !length_app in Hs. lia.
  - apply (f_equal length) in Hr'. rewrite !length_app in Hr'. lia.
Qed.

(** ** Loading the tables *)

Lemma load_loop_lookup (path_exists : string → bool)
    (read_csv : string → gmap string (gmap string float))
    (items : list (string * string)) :
  NoDup items.*1 →
  ∀ (df_dict : gmap string (gmap string (gmap string float))) (key : string),
    load_loop path_exists read_csv items df_dict !! key =
    match subscript items key with
    | Some path => if path_exists path then Some (read_csv path) else df_dict !! key
    | None => df_dict !! key
    end.
Proof.
  induction items as [|[k p] items IH]; intros Hnd df_dict key; simpl; [done|].
  apply NoDup_cons in Hnd as [Hk Hnd]. rewrite (IH Hnd).
  case_decide as Hkey.
  - subst k.
    assert (subscript items key = None) as ->.
    { clear -Hk. induction items as [|[k' p'] items IH]; simpl; [done|].
      apply not_elem_of_cons in Hk as [Hne Hk]. rewrite decide_False by done. auto. }
    destruct (path_exists p); [|done]. by rewrite lookup_insert_eq.
  - destruct (subscript items key) as [path|]; [destruct (path_exists path); [done|]|];
      (destruct (path_exists p); [by rewrite lookup_insert_ne|done]).
Qed.

(** X6: With the tables loaded by [load_cleaned_data], the round of an
    intervention whose cleaned file does not exist only adds the report
    that its dataset is not loaded; when the file exists and the table
    read from it lacks the selected column the round only adds the report
    of the missing column; and when the table has the column the round
    evaluates that column: it adds no report, sets [valid_plot] and
    writes the series of the column to the three columns of the
    intervention. *)
Theorem missing_file_is_not_loaded (path_exists : string → bool)
    (read_csv : string → gmap string (gmap string float))
    (target_col : string) (levels : gmap string float) (year_range : list Z)
    (st : RunState) (d key path : string) :
  subscript INTERVENTION_OPTIONS d = Some key →
  subscript CLEANED_DATASETS key = Some path →
  let df_dict := load_cleaned_data path_exists read_csv in
  let round := intervention_body df_dict target_col levels year_range st d in
  (path_exists path = false →
     df_dict !! key = None
     ∧ round = Some {| locals := locals st; results_df := results_df st;
                       valid_plot := valid_plot st;
                       page := page st ++ [st_error (msg_not_loaded key)] |})
  ∧ (path_exists path = true →
     df_dict !! key = Some (read_csv path)
     ∧ (read_csv path !! target_col = None →
        round = Some {| locals := locals st; results_df := results_df st;
                        valid_plot := valid_plot st;
                        page := page st ++ [st_error (msg_no_column target_col key)] |})
     ∧ (∀ beta, read_csv path !! target_col = Some beta →
        (levels_cover levels d → is_Some round)
        ∧ ∀ st', round = Some st' →
            page st' = page st ∧ valid_plot st' = true
            ∧ ∃ outs,
                Forall2 (λ year o, outputs <$> year_body key levels beta unbound year
                                   = Some o) year_range outs
                ∧ columns_hold (results_df st') d outs)).
Proof.
  intros Hd Hkey df_dict round.
  assert (df_dict !! key = if path_exists path then Some (read_csv path) else None)
    as Hlook.
  { unfold df_dict, load_cleaned_data. rewrite load_loop_lookup, Hkey.
    - by destruct (path_exists path).
    - apply (bool_decide_unpack _). by vm_compute. }
  split; intros Hex; rewrite Hex in Hlook.
  - split; [done|]. unfold round, intervention_body.
    rewrite Hd. cbn [mbind option_bind]. by rewrite Hlook.
  - split; [done|]. split.
    + intros Hcol. unfold round, intervention_body.
      rewrite Hd. cbn [mbind option_bind]. by rewrite Hlook, Hcol.
    + intros beta Hcol. split.
      * intros Hcov. by apply intervention_body_total.
      * intros st' Hrun.
        destruct (intervention_body_usable _ _ _ _ _ _ _ _ _ _ Hd Hlook Hcol Hrun)
          as (outs & Houts & Hres & Hvalid & Hpage).
        split; [done|]. split; [done|]. exists outs. split.
        -- eapply Forall2_impl; [exact Houts|]. intros year o Ho. simpl.
           by rewrite year_body_predict.
        -- eapply intervention_body_own_columns; [done| |done|done].
           unfold selected_column. rewrite Hd. cbn [mbind option_bind].
           rewrite Hlook. done.
Qed.

Lemma missing_file_is_not_loaded_witness :
  let path_exists := λ p : string, bool_decide (p = "clean_data/pdiabe_cleaned.csv") in
  let read_csv := λ _ : string, <["p_diabe_all" := beta_P2]> (∅ : gmap string (gmap string float)) in
  let levels := {["phearte" := 0.85%float]} : gmap string float in
  let key := "phearte" in
  let path := "clean_data/phearte_cleaned.csv" in
  let df_dict := load_cleaned_data path_exists read_csv in
  let round := intervention_body df_dict "p_diabe_all" levels [2026; 2028] initial_state
                 "Heart Disease Incidence Reduction" in
  (path_exists path = false →
     df_dict !! key = None
     ∧ round = Some {| locals := locals initial_state;
                       results_df := results_df initial_state;
                       valid_plot := valid_plot initial_state;
                       page := page initial_state ++ [st_error (msg_not_loaded key)] |})
  ∧ (path_exists path = true →
     df_dict !! key = Some (read_csv path)
     ∧ (read_csv path !! "p_diabe_all" = None →
        round = Some {| locals := locals initial_state;
                        results_df := results_df initial_state;
                        valid_plot := valid_plot initial_state;
                        page := page initial_state
                                ++ [st_error (msg_no_column "p_diabe_all" key)] |})
     ∧ (∀ beta, read_csv path !! "p_diabe_all" = Some beta →
        (levels_cover levels "Heart Disease Incidence Reduction" → is_Some round)
        ∧ ∀ st', round = Some st' →
            page st' = page initial_state ∧ valid_plot st' = true
            ∧ ∃ outs,
                Forall2 (λ year o, outputs <$> year_body key levels beta unbound year
                                   = Some o) [2026; 2028] outs
                ∧ columns_hold (results_df st') "Heart Disease Incidence Reduction" outs)).
Proof.
  apply (missing_file_is_not_loaded
           (λ p : string, bool_decide (p = "clean_data/pdiabe_cleaned.csv"))
           (λ _ : string, <["p_diabe_all" := beta_P2]> ∅)
           "p_diabe_all" {["phearte" := 0.85%float]} [2026; 2028] initial_state
           "Heart Disease Incidence Reduction" "phearte"
           "clean_data/phearte_cleaned.csv").
  - reflexivity.
  - reflexivity.
Defined.

(** The three outcomes of a round on the tables of a file system where
    only the diabetes file exists. *)
Example rounds_after_loading :
  let path_exists := λ p : string, bool_decide (p = "clean_data/pdiabe_cleaned.csv") in
  let read_csv := λ _ : string, <["p_diabe_all" := beta_P2]> (∅ : gmap string (gmap string float)) in
  let df_dict := load_cleaned_data path_exists read_csv in
  page <$> intervention_body df_dict "p_diabe_all" {["phearte" := 0.85%float]} [2026]
             initial_state "Heart Disease Incidence Reduction"
  = Some [st_error "Dataset for phearte not loaded."]
  ∧ page <$> intervention_body df_dict "n_hibpe_all" {["pdiabe" := 0.85%float]} [2026]
               initial_state "Diabetes Incidence Reduction"
    = Some [st_error "Column 'n_hibpe_all' not found in pdiabe dataset."]
  ∧ results_df <$> intervention_body df_dict "p_diabe_all" {["pdiabe" := 0.85%float]}
                     [2026] initial_state "Diabetes Incidence Reduction"
    = Some [ ("Baseline (Diabetes Incidence Reduction)", [6.5%float]);
             ("Intervention (Diabetes Incidence Reduction)", [7.175%float]);
             ("Change (Diabetes Incidence Reduction)", [0.67499999999999982%float]) ].
Proof. repeat split; vm_compute; reflexivity. Qed.

(** X7: The cleaning script writes the table of each raw dataset to the path
    the dashboard loads it from, and the datasets of both scripts are
    the intervention identities of the dashboard. *)
Theorem cleaned_paths_agree :
  (∀ name raw, (name, raw) ∈ CleanData.RAW_DATASETS →
     subscript CLEANED_DATASETS name = Some (CleanData.output_path name))
  ∧ CleanData.RAW_DATASETS.*1 = CLEANED_DATASETS.*1
  ∧ CLEANED_DATASETS.*1 = INTERVENTION_OPTIONS.*2.
Proof.
  split; [|done]. intros name raw Hin.
  unfold CleanData.RAW_DATASETS in Hin.
  repeat (apply elem_of_cons in Hin as [[= -> ->]|Hin]; [reflexivity|]).
  by apply elem_of_nil in Hin.
Qed.

(** ** The year range *)

Lemma range2_lookup (start stop : Z) (i : nat) (y : Z) :
  range2 start stop !! i = Some y ↔
  y = start + 2 * Z.of_nat i ∧ (i < Z.to_nat ((stop - start + 1) `div` 2))%nat.
Proof.
  unfold range2. rewrite list_lookup_fmap. split.
  - intros H. apply fmap_Some in H as (j & Hj & ->).
    apply lookup_seq in Hj as [-> Hlt]. done.
  - intros [-> Hlt]. rewrite (lookup_seq_lt _ _ _ Hlt). done.
Qed.

(** X8: The years of a run are the years from the start year to the end
    year at even distance from the start year, in increasing order; there
    are none when the end year is before the start year. *)
Theorem year_range_elements (start_year end_year : Z) :
  let year_range := range2 start_year (end_year + 1) in
  (∀ y, y ∈ year_range ↔
        start_year ≤ y ≤ end_year ∧ (y - start_year) `mod` 2 = 0)
  ∧ (∀ i j a b, year_range !! i = Some a → year_range !! j = Some b →
        (i < j)%nat → a < b)
  ∧ (∀ i y, year_range !! i = Some y → y = start_year + 2 * Z.of_nat i)
  ∧ (end_year < start_year ↔ year_range = []).
Proof.
  intros year_range. unfold year_range.
  assert (Hdiv : ∀ d : Z, 2 * (d `div` 2) ≤ d < 2 * (d `div` 2) + 2).
  { intros d. pose proof (Z.div_mod d 2 ltac:(lia)).
    pose proof (Z.mod_pos_bound d 2 ltac:(lia)). lia. }
  split; [intros y; split|split; [|split; [|split]]].
  - intros (i & Hi)%list_elem_of_lookup. apply range2_lookup in Hi as [-> Hlt].
    apply Nat2Z.inj_lt in Hlt.
    pose proof (Hdiv (end_year + 1 - start_year + 1)).
    split; [|replace (start_year + 2 * Z.of_nat i - start_year)
               with (Z.of_nat i * 2) by lia; apply Z.mod_mul; lia].
    destruct (decide (0 ≤ (end_year + 1 - start_year + 1) `div` 2)).
    + rewrite Z2Nat.id in Hlt by lia. lia.
    + rewrite Z2Nat.nonpos in Hlt by lia. lia.
  - intros [[Hlo Hhi] Hmod]. apply list_elem_of_lookup.
    exists (Z.to_nat ((y - start_year) `div` 2)). apply range2_lookup.
    pose proof (Z.div_mod (y - start_year) 2 ltac:(lia)).
    pose proof (Hdiv (end_year + 1 - start_year + 1)).
    split; [rewrite Z2Nat.id; lia|]. apply Z2Nat.inj_lt; lia.
  - intros i j a b [-> _]%range2_lookup [-> _]%range2_lookup Hij. lia.
  - intros i y [-> _]%range2_lookup. done.
  - intros Hlt. unfold range2.
    replace (Z.to_nat ((end_year + 1 - start_year + 1) `div` 2)) with 0%nat; [done|].
    pose proof (Hdiv (end_year + 1 - start_year + 1)). lia.
  - intros Hnil. destruct (decide (end_year < start_year)) as [|Hge]; [done|].
    assert (range2 start_year (end_year + 1) !! 0%nat = Some start_year) as H0.
    { apply range2_lookup. split; [lia|].
      pose proof (Hdiv (end_year + 1 - start_year + 1)). lia. }
    by rewrite Hnil in H0.
Qed.

(** ** Assigning columns of [results_df] *)

Lemma set_column_same (name : string) (values : list float)
    (df : list (string * list float)) :
  column df name = Some values → set_column name values df = df.
Proof.
  induction df as [|[n v] df IH]; simpl; [done|].
  case_decide as Hn; [by intros [= ->]|]. intros Hcol. by rewrite IH.
Qed.

Lemma set_column_names (name : string) (values : list float)
    (df : list (string * list float)) :
  (set_column name values df).*1
  = if decide (is_Some (column df name)) then df.*1 else df.*1 ++ [name].
Proof.
  induction df as [|[n v] df IH].
  - by destruct (decide (is_Some (column [] name))) as [?%is_Some_None|].
  - cbn [set_column column]. destruct (decide (n = name)) as [->|Hn].
    + by rewrite decide_True.
    + rewrite !fmap_cons, IH. by destruct (decide (is_Some (column df name))).
Qed.

Lemma column_is_Some_name (df : list (string * list float)) (name : string) :
  is_Some (column df name) ↔ name ∈ df.*1.
Proof.
  induction df as [|[n v] df IH]; simpl.
  - split; [by intros ?%is_Some_None|by intros ?%elem_of_nil].
  - rewrite elem_of_cons. destruct (decide (n = name)) as [->|Hn].
    + split; [by left|by eexists].
    + rewrite IH. split; [by right|]. by intros [->|].
Qed.

(** Assigning a column of [results_df] and reading columns back: the
    assigned column holds the new values and every other column is as
    before; an existing column keeps its place and a new one is added
    last, so the column names stay free of duplicates; assigning the same
    values again, or assigning twice in a row, is the same as the last
    assignment alone. *)
Lemma results_df_assignment (name : string) (values values' : list float)
    (df : list (string * list float)) :
  (∀ name', column (set_column name values df) name'
            = if decide (name = name') then Some values else column df name')
  ∧ (set_column name values df).*1
    = (if decide (name ∈ df.*1) then df.*1 else df.*1 ++ [name])
  ∧ (NoDup df.*1 → NoDup (set_column name values df).*1)
  ∧ set_column name values (set_column name values df) = set_column name values df
  ∧ set_column name values (set_column name values' df) = set_column name values df.
Proof.
  assert (Hnames : (set_column name values df).*1
    = (if decide (name ∈ df.*1) then df.*1 else df.*1 ++ [name])).
  { rewrite set_column_names.
    destruct (decide (is_Some (column df name))) as [H|H];
      rewrite column_is_Some_name in H;
      [by rewrite decide_True|by rewrite decide_False]. }
  split; [|split; [done|split; [|split]]].
  - intros name'. destruct (decide (name = name')) as [<-|Hn].
    + apply column_set_column_eq.
    + by apply column_set_column_ne.
  - intros Hnd. rewrite Hnames. case_decide as Hin; [done|].
    apply NoDup_app. split; [done|]. split; [|apply NoDup_singleton].
    intros n Hn ->%list_elem_of_singleton. done.
  - apply set_column_same, column_set_column_eq.
  - clear Hnames. induction df as [|[n v] df IH]; cbn [set_column].
    + by rewrite decide_True.
    + destruct (decide (n = name)) as [->|Hn]; cbn [set_column].
      * by rewrite decide_True.
      * rewrite decide_False by done. by rewrite IH.
Qed.

Lemma set_column_elem_names (n name : string) (values : list float)
    (df : list (string * list float)) :
  n ∈ (set_column name values df).*1 ↔ n = name ∨ n ∈ df.*1.
Proof.
  rewrite set_column_names.
  destruct (decide (is_Some (column df name))) as [Hin|Hin];
    rewrite column_is_Some_name in Hin.
  - split; [by right|]. by intros [->|].
  - rewrite elem_of_app, list_elem_of_singleton. tauto.
Qed.

Lemma set_column_NoDup (name : string) (values : list float)
    (df : list (string * list float)) :
  NoDup df.*1 → NoDup (set_column name values df).*1.
Proof.
  intros Hnd. rewrite set_column_names.
  destruct (decide (is_Some (column df name))) as [Hin|Hin]; [done|].
  rewrite column_is_Some_name in Hin.
  apply NoDup_app. split; [done|]. split; [|apply NoDup_singleton].
  by intros n Hn ->%list_elem_of_singleton.
Qed.

Lemma set_column_Forall (Q : string * list float → Prop) (name : string)
    (values : list float) (df : list (string * list float)) :
  (∀ n v, Q (n, v) → Q (n, values)) →
  Q (name, values) → Forall Q df → Forall Q (set_column name values df).
Proof.
  intros Hrepl Hnew. induction 1 as [|[n v] df Hc Hdf IH]; cbn [set_column].
  - by constructor.
  - destruct (decide (n = name)) as [->|Hn]; constructor; done.
Qed.

Section frame.
Context (df_dict : gmap string (gmap string (gmap string float))).
Context (target_col : string) (levels : gmap string float) (year_range : list Z).

Lemma intervention_body_frame (st st' : RunState) (d : string) :
  intervention_body df_dict target_col levels year_range st d = Some st' →
  NoDup (results_df st).*1 → rows_match year_range (results_df st) →
  NoDup (results_df st').*1 ∧ rows_match year_range (results_df st')
  ∧ ∀ n, n ∈ (results_df st').*1 ↔
         n ∈ (results_df st).*1
         ∨ (usable df_dict target_col d
            ∧ (n = col_baseline d ∨ n = col_intervention d ∨ n = col_change d)).
Proof.
  intros Hrun Hnd Hrows.
  destruct (decide (usable df_dict target_col d)) as [Hu|Hu].
  - destruct Hu as [beta Hbeta]. assert (usable df_dict target_col d) as Hu by by exists beta.
    unfold selected_column in Hbeta.
    destruct (subscript INTERVENTION_OPTIONS d) as [key|] eqn:Hkey; [|done].
    cbn [mbind option_bind] in Hbeta.
    destruct (df_dict !! key) as [df|] eqn:Hdf; [|done].
    cbn [mbind option_bind] in Hbeta.
    destruct (intervention_body_usable _ _ _ _ _ _ _ _ _ _ Hkey Hdf Hbeta Hrun)
      as (outs & Houts & -> & _).
    apply Forall2_length in Houts.
    split; [by do 5 apply set_column_NoDup|]. split.
    + unfold rows_match.
      do 5 (apply set_column_Forall;
            [by intros ?? _; cbn; rewrite !length_fmap
            |by cbn; rewrite !length_fmap|]).
      done.
    + intros n. rewrite !set_column_elem_names. tauto.
  - destruct (intervention_body_unusable _ _ _ _ _ _ _ Hu Hrun) as [(_ & -> & _) _].
    split; [done|]. split; [done|]. intros n. tauto.
Qed.

Lemma intervention_loop_frame (sel : list string) :
  ∀ st st' : RunState,
    intervention_loop df_dict target_col levels year_range st sel = Some st' →
    NoDup (results_df st).*1 → rows_match year_range (results_df st) →
    NoDup (results_df st').*1 ∧ rows_match year_range (results_df st')
    ∧ ∀ n, n ∈ (results_df st').*1 ↔
           n ∈ (results_df st).*1
           ∨ ∃ d, d ∈ sel ∧ usable df_dict target_col d
                  ∧ (n = col_baseline d ∨ n = col_intervention d ∨ n = col_change d).
Proof.
  induction sel as [|d sel IH]; intros st st' Hloop Hnd Hrows; cbn [intervention_loop] in Hloop.
  - injection Hloop as <-. split; [done|]. split; [done|]. intros n. split; [by left|].
    intros [?|(d & Hd & _)]; [done|]. by apply elem_of_nil in Hd.
  - destruct (intervention_body df_dict target_col levels year_range st d)
      as [st1|] eqn:E1; [|done].
    cbn [mbind option_bind] in Hloop.
    destruct (intervention_body_frame _ _ _ E1 Hnd Hrows) as (Hnd1 & Hrows1 & Hn1).
    destruct (IH _ _ Hloop Hnd1 Hrows1) as (Hnd' & Hrows' & Hn').
    split; [done|]. split; [done|]. intros n. rewrite Hn', Hn1. split.
    + intros [[?|[Hu Hn]]|(d' & Hd' & Hu & Hn)]; [by left| |].
      * right. exists d. split; [by left|done].
      * right. exists d'. split; [by right|done].
    + intros [?|(d' & Hd' & Hu & Hn)]; [by left; left|].
      apply elem_of_cons in Hd' as [->|Hd'].
      * left. by right.
      * right. by exists d'.
Qed.

End frame.

(** X9: After the loop over the selected interventions, [results_df] has
    no two columns of the same name, every column holds one value per
    year of the run (so each assignment fits the frame), and its columns
    are exactly the baseline, intervention and change columns of the
    usable selected interventions. *)
Theorem results_df_after_the_loop
    (df_dict : gmap string (gmap string (gmap string float)))
    (target_col : string) (levels : gmap string float) (year_range : list Z)
    (sel : list string) (st : RunState) :
  intervention_loop df_dict target_col levels year_range initial_state sel = Some st →
  NoDup (results_df st).*1
  ∧ Forall (λ c, length c.2 = length year_range) (results_df st)
  ∧ ∀ n, n ∈ (results_df st).*1 ↔
         ∃ d, d ∈ sel ∧ usable df_dict target_col d
              ∧ (n = col_baseline d ∨ n = col_intervention d ∨ n = col_change d).
Proof.
  intros Hloop.
  destruct (intervention_loop_frame df_dict target_col levels year_range sel
              initial_state st Hloop) as (Hnd & Hrows & Hn).
  - constructor.
  - constructor.
  - split; [done|]. split; [done|]. intros n. rewrite Hn. split; [|by right].
    intros [Hin|?]; [|done]. by apply elem_of_nil in Hin.
Qed.

Lemma results_df_after_the_loop_witness :
  ∃ st,
    intervention_loop df_dict_P2 "p_diabe_all" {["pdiabe" := 0.85%float; "phibpe" := 0.85%float]}
      [2026; 2028] initial_state
      ["Hypertension Incidence Reduction"; "Diabetes Incidence Reduction"] = Some st
    ∧ NoDup (results_df st).*1
    ∧ Forall (λ c, length c.2 = length [2026; 2028]) (results_df st)
    ∧ ∀ n, n ∈ (results_df st).*1 ↔
           ∃ d, d ∈ ["Hypertension Incidence Reduction"; "Diabetes Incidence Reduction"]
                ∧ usable df_dict_P2 "p_diabe_all" d
                ∧ (n = col_baseline d ∨ n = col_intervention d ∨ n = col_change d).
Proof.
  eexists. split; [vm_compute; reflexivity|].
  apply (results_df_after_the_loop df_dict_P2 "p_diabe_all"
           {["pdiabe" := 0.85%float; "phibpe" := 0.85%float]} [2026; 2028]
           ["Hypertension Incidence Reduction"; "Diabetes Incidence Reduction"]).
  vm_compute. reflexivity.
Defined.

(** X10: The second assignment of the baseline and intervention columns
    (lines 204-205) changes nothing: after an intervention's round
    [results_df] is what the three assignments of its baseline,
    intervention and change columns give. *)
Theorem repeated_assignment_changes_nothing
    (df_dict : gmap string (gmap string (gmap string float)))
    (target_col : string) (levels : gmap string float) (year_range : list Z)
    (st st' : RunState) (d : string) :
  usable df_dict target_col d →
  intervention_body df_dict target_col levels year_range st d = Some st' →
  results_df st' =
    set_column (col_change d)
      (diff_values (intervention_values (locals st')) (baseline_values (locals st')))
      (set_column (col_intervention d) (intervention_values (locals st'))
        (set_column (col_baseline d) (baseline_values (locals st')) (results_df st))).
Proof.
  intros [beta Hbeta]. unfold selected_column in Hbeta. unfold intervention_body.
  destruct (subscript INTERVENTION_OPTIONS d) as [key|]; [|done]. simpl in *.
  destruct (df_dict !! key) as [df|]; [|done]. simpl in *. rewrite Hbeta.
  destruct (year_loop _ _ _ _ _) as [fr|]; [|done]. simpl. intros [= <-]. simpl.
  destruct (col_names_differ d d) as (Hbi & Hbc & Hic).
  f_equal.
  rewrite (set_column_same (col_baseline d)).
  - apply set_column_same, column_set_column_eq.
  - rewrite column_set_column_ne by done. apply column_set_column_eq.
Qed.

Lemma repeated_assignment_changes_nothing_witness :
  ∃ st' : RunState,
    intervention_body df_dict_P2 "p_diabe_all" {["pdiabe" := 0.85%float]} [2026; 2028]
      initial_state "Diabetes Incidence Reduction" = Some st'
    ∧ results_df st' =
        set_column (col_change "Diabetes Incidence Reduction")
          (diff_values (intervention_values (locals st')) (baseline_values (locals st')))
          (set_column (col_intervention "Diabetes Incidence Reduction")
             (intervention_values (locals st'))
             (set_column (col_baseline "Diabetes Incidence Reduction")
                (baseline_values (locals st')) (results_df initial_state))).
Proof.
  eexists. split; [vm_compute; reflexivity|].
  apply (repeated_assignment_changes_nothing df_dict_P2 "p_diabe_all"
           {["pdiabe" := 0.85%float]} [2026; 2028] initial_state _
           "Diabetes Incidence Reduction").
  - apply (bool_decide_unpack _). vm_compute. exact I.
  - vm_compute. reflexivity.
Defined.

(** ** The sliders *)

Lemma INTERVENTION_OPTIONS_values (d key : string) :
  subscript INTERVENTION_OPTIONS d = Some key →
  (d = "Diabetes Incidence Reduction" ∧ key = "pdiabe")
  ∨ (d = "Heart Disease Incidence Reduction" ∧ key = "phearte")
  ∨ (d = "Hypertension Incidence Reduction" ∧ key = "phibpe")
  ∨ (d = "MCI/Dementia Incidence Reduction" ∧ key = "pcogstate").
Proof.
  unfold INTERVENTION_OPTIONS. simpl.
  repeat (case_decide; [intros [= <-]; subst d; tauto|]). done.
Qed.

Lemma INTERVENTION_OPTIONS_inj (d d' key : string) :
  subscript INTERVENTION_OPTIONS d = Some key →
  subscript INTERVENTION_OPTIONS d' = Some key →
  d = d'.
Proof.
  intros H H'. apply INTERVENTION_OPTIONS_values in H, H'.
  destruct H as [[-> ->]|[[-> ->]|[[-> ->]|[-> ->]]]];
    destruct H' as [[-> ?]|[[-> ?]|[[-> ?]|[-> ?]]]]; done.
Qed.

Section sliders.
Context (slider : string → float).

(** Every entry of [intervention_levels] is the position of a slider. *)
Definition from_sliders (lv : gmap string float) : Prop :=
  ∀ k v, lv !! k = Some v →
    (k = "pcogstate_1" ∧ v = slider "Dementia Prevalence Reduction")
    ∨ (k = "pcogstate_2" ∧ v = slider "MCI Prevalence Reduction")
    ∨ ∃ d, subscript INTERVENTION_OPTIONS d = Some k ∧ k ≠ "pcogstate"
           ∧ v = slider (d +:+ " Level").

Lemma levels_step_from_sliders (lv lv' : gmap string float) (d : string) :
  from_sliders lv → levels_step slider lv d = Some lv' → from_sliders lv'.
Proof.
  intros Hinv. unfold levels_step.
  destruct (subscript INTERVENTION_OPTIONS d) as [key|] eqn:Hkey; [|done]. simpl.
  case_decide as Hp; intros [= <-] k v.
  - rewrite lookup_insert. case_decide as H2; [intros [= <-]; subst k; tauto|].
    rewrite lookup_insert. case_decide as H1; [intros [= <-]; subst k; tauto|].
    apply Hinv.
  - rewrite lookup_insert. case_decide as Hk; [|apply Hinv].
    intros [= <-]. subst k. right. right. by exists d.
Qed.

Lemma levels_loop_from_sliders (sel : list string) :
  ∀ lv lv' : gmap string float,
    from_sliders lv → levels_loop slider lv sel = Some lv' → from_sliders lv'.
Proof.
  induction sel as [|d sel IH]; intros lv lv' Hinv; simpl.
  - by intros [= <-].
  - destruct (levels_step slider lv d) as [lv1|] eqn:E1; [|done]. simpl.
    apply IH. by eapply levels_step_from_sliders.
Qed.

Lemma levels_loop_valid (sel : list string) :
  ∀ lv lv' : gmap string float,
    levels_loop slider lv sel = Some lv' →
    Forall (λ d, is_Some (subscript INTERVENTION_OPTIONS d)) sel.
Proof.
  induction sel as [|d sel IH]; intros lv lv' Hloop; [done|].
  cbn [levels_loop] in Hloop.
  destruct (levels_step slider lv d) as [lv1|] eqn:E1; [|done].
  constructor; [|by eapply IH].
  unfold levels_step in E1.
  destruct (subscript INTERVENTION_OPTIONS d) as [key|]; [by exists key|done].
Qed.

Lemma not_an_identity (d key : string) :
  subscript INTERVENTION_OPTIONS d = Some key →
  key ≠ "pcogstate_1" ∧ key ≠ "pcogstate_2".
Proof.
  intros [[_ ->]|[[_ ->]|[[_ ->]|[_ ->]]]]%INTERVENTION_OPTIONS_values; done.
Qed.

Lemma levels_loop_own_slider (sel : list string) (levels : gmap string float)
    (d key : string) :
  levels_loop slider ∅ sel = Some levels →
  d ∈ sel →
  subscript INTERVENTION_OPTIONS d = Some key →
  level_of_slider slider levels d key.
Proof.
  intros Hloop Hd Hkey.
  pose proof (levels_loop_valid _ _ _ Hloop) as Hvalid.
  destruct (levels_loop_cover slider sel Hvalid ∅) as (lv' & Hloop' & _ & Hcov).
  assert (lv' = levels) as -> by congruence.
  assert (from_sliders levels) as Hinv.
  { eapply levels_loop_from_sliders; [|done]. intros k v. by rewrite lookup_empty. }
  eapply Forall_forall in Hcov as (key' & Hkey' & Hlev); [|done].
  assert (key' = key) as -> by congruence.
  unfold level_of_slider. case_decide as Hp.
  - destruct Hlev as [[v1 H1] [v2 H2]]. rewrite H1, H2.
    destruct (Hinv _ _ H1) as [[_ ->]|[[? _]|(d' & Hd' & _)]]; [|discriminate|].
    + destruct (Hinv _ _ H2) as [[? _]|[[_ ->]|(d' & Hd' & _)]];
        [discriminate|by split|].
      apply not_an_identity in Hd' as [? ?]. done.
    + apply not_an_identity in Hd' as [? ?]. done.
  - destruct Hlev as [v Hv]. rewrite Hv.
    destruct (Hinv _ _ Hv) as [[-> _]|[[-> _]|(d' & Hd' & _ & ->)]].
    + apply not_an_identity in Hkey as [? ?]. done.
    + apply not_an_identity in Hkey as [? ?]. done.
    + by rewrite (INTERVENTION_OPTIONS_inj _ _ _ Hkey Hd').
Qed.

End sliders.

(** X11: Each selected intervention is evaluated at the position of its own
    slider (the two dementia and MCI sliders for "pcogstate"), whatever
    else is selected and in whatever order: with the levels the slider
    loop built, the loop body succeeds for every table, year and prior
    state, reads these positions into [L1] (and [L2]) and leaves the
    formula of its branch at these positions. *)
Theorem intervention_reads_its_own_slider (slider : string → float)
    (sel : list string) (levels : gmap string float) (d key : string) :
  levels_loop slider ∅ sel = Some levels →
  d ∈ sel →
  subscript INTERVENTION_OPTIONS d = Some key →
  level_of_slider slider levels d key
  ∧ ∀ (beta : gmap string float) (fr : Locals) (year : Z),
      ∃ fr', year_body key levels beta fr year = Some fr'
        ∧ (if decide (key = "pcogstate")
           then L1 fr' = slider "Dementia Prevalence Reduction"
                ∧ L2 fr' = slider "MCI Prevalence Reduction"
           else L1 fr' = slider (d +:+ " Level"))
        ∧ outputs fr' =
            (if decide (key = "pcogstate")
             then Spec.two_level beta year (slider "Dementia Prevalence Reduction")
                    (slider "MCI Prevalence Reduction")
             else Spec.single_level beta year (slider (d +:+ " Level"))).
Proof.
  intros Hloop Hd Hkey.
  pose proof (levels_loop_own_slider slider sel levels d key Hloop Hd Hkey) as Hown.
  split; [done|]. intros beta fr year.
  unfold level_of_slider in Hown. case_decide as Hp.
  - subst key. destruct Hown as [H1 H2].
    destruct (year_body_two levels beta fr year _ _ H1 H2)
      as (fr' & Hrun & _ & _ & _ & _ & _ & _ & _ & _ & _ & HL1 & HL2 & _).
    exists fr'. split; [done|]. split; [done|].
    pose proof (year_body_two_outputs levels beta fr year _ _ H1 H2) as Hout.
    rewrite Hrun in Hout. cbn [fmap option_fmap option_map] in Hout. congruence.
  - destruct (year_body_single key levels beta fr year _ Hp Hown)
      as (fr' & Hrun & _ & _ & _ & _ & _ & HL1 & _).
    exists fr'. split; [done|]. split; [done|].
    pose proof (year_body_single_outputs key levels beta fr year _ Hp Hown) as Hout.
    rewrite Hrun in Hout. cbn [fmap option_fmap option_map] in Hout. congruence.
Qed.

Lemma intervention_reads_its_own_slider_witness :
  ∃ levels,
    levels_loop slider_default ∅
      ["MCI/Dementia Incidence Reduction"; "Diabetes Incidence Reduction"] = Some levels
    ∧ level_of_slider slider_default levels "Diabetes Incidence Reduction" "pdiabe"
    ∧ ∀ (beta : gmap string float) (fr : Locals) (year : Z),
        ∃ fr', year_body "pdiabe" levels beta fr year = Some fr'
          ∧ (if decide ("pdiabe" = "pcogstate")
             then L1 fr' = slider_default "Dementia Prevalence Reduction"
                  ∧ L2 fr' = slider_default "MCI Prevalence Reduction"
             else L1 fr' = slider_default ("Diabetes Incidence Reduction" +:+ " Level"))
          ∧ outputs fr' =
              (if decide ("pdiabe" = "pcogstate")
               then Spec.two_level beta year
                      (slider_default "Dementia Prevalence Reduction")
                      (slider_default "MCI Prevalence Reduction")
               else Spec.single_level beta year
                      (slider_default ("Diabetes Incidence Reduction" +:+ " Level"))).
Proof.
  eexists. split; [vm_compute; reflexivity|].
  apply (intervention_reads_its_own_slider slider_default
           ["MCI/Dementia Incidence Reduction"; "Diabetes Incidence Reduction"] _
           "Diabetes Incidence Reduction" "pdiabe").
  - vm_compute. reflexivity.
  - apply (bool_decide_unpack _). vm_compute. exact I.
  - reflexivity.
Defined.

(** The levels of a run with both kinds of intervention selected, and
    what the loop body reads and returns at them. *)
Example sliders_read_by_the_body :
  ∃ levels fr1 fr2,
    levels_loop slider_default ∅
      ["MCI/Dementia Incidence Reduction"; "Diabetes Incidence Reduction"] = Some levels
    ∧ year_body "pdiabe" levels beta_P2 unbound 2026 = Some fr1
    ∧ L1 fr1 = 0.85%float ∧ outputs fr1 = (6.5%float, 7.175%float)
    ∧ year_body "pcogstate" levels beta_P4_interactions unbound 2026 = Some fr2
    ∧ L1 fr2 = 0.85%float ∧ L2 fr2 = 0.90%float
    ∧ base_val fr2 = 4%float.
Proof.
  eexists _, _, _. split; [vm_compute; reflexivity|].
  split; [vm_compute; reflexivity|]. cbn [L1 L2 outputs base_val inter_val].
  split; [reflexivity|]. split; [reflexivity|].
  split; [vm_compute; reflexivity|]. cbn [L1 L2 base_val].
  repeat split; vm_compute; reflexivity.
Qed.

(** ** What a series depends on *)

(** X12: The baseline of a year does not depend on the slider levels, nor on
    what the script's variables held: it is the formula of the branch at
    level 1.0. *)
Theorem baseline_ignores_levels (key : string) (levels levels' beta : gmap string float)
    (fr fr' fr1 fr2 : Locals) (year : Z) :
  year_body key levels beta fr year = Some fr1 →
  year_body key levels' beta fr' year = Some fr2 →
  base_val fr1 = base_val fr2
  ∧ base_val fr1 = (if decide (key = "pcogstate")
                    then Spec.value2 beta year 1.0 1.0
                    else Spec.value1 beta year 1.0).
Proof.
  intros H1 H2.
  pose proof (year_body_predict key levels beta fr year) as P1.
  pose proof (year_body_predict key levels' beta fr' year) as P2.
  rewrite H1 in P1. rewrite H2 in P2. unfold Spec.predict in P1, P2.
  simpl in P1, P2. case_decide.
  - destruct (levels !! "pcogstate_1"), (levels !! "pcogstate_2"); try done.
    destruct (levels' !! "pcogstate_1"), (levels' !! "pcogstate_2"); try done.
    simpl in P1, P2. injection P1 as Hb1 _. injection P2 as Hb2 _. by rewrite Hb1, Hb2.
  - destruct (levels !! key); [|done]. destruct (levels' !! key); [|done].
    simpl in P1, P2. injection P1 as Hb1 _. injection P2 as Hb2 _. by rewrite Hb1, Hb2.
Qed.

Lemma baseline_ignores_levels_witness :
  ∃ fr1 fr2,
    year_body "pdiabe" {["pdiabe" := 0.85%float]} beta_P2 unbound 2026 = Some fr1
    ∧ year_body "pdiabe" {["pdiabe" := 0.5%float]} beta_P2 unbound 2026 = Some fr2
    ∧ base_val fr1 = base_val fr2
    ∧ base_val fr1 = (if decide ("pdiabe" = "pcogstate")
                      then Spec.value2 beta_P2 2026 1.0 1.0
                      else Spec.value1 beta_P2 2026 1.0).
Proof.
  eexists _, _. split; [vm_compute; reflexivity|]. split; [vm_compute; reflexivity|].
  apply (baseline_ignores_levels "pdiabe" {["pdiabe" := 0.85%float]}
           {["pdiabe" := 0.5%float]} beta_P2 unbound unbound _ _ 2026);
    vm_compute; reflexivity.
Defined.

Lemma predict_levels_agree (key : string) (levels levels' beta : gmap string float)
    (slider : string → float) (d : string) (year : Z) :
  level_of_slider slider levels d key →
  level_of_slider slider levels' d key →
  Spec.predict key levels beta year = Spec.predict key levels' beta year.
Proof.
  unfold level_of_slider, Spec.predict. case_decide.
  - by intros [-> ->] [-> ->].
  - by intros -> ->.
Qed.

(** X13: The three columns of an intervention are the same in any two runs
    that select it, whatever else each run selects and in whatever
    order: with the same tables, column, years and sliders. *)
Theorem series_independent_of_selection
    (df_dict : gmap string (gmap string (gmap string float)))
    (slider : string → float) (target_col : string) (year_range : list Z)
    (sel1 sel2 : list string) (levels1 levels2 : gmap string float)
    (st1 st2 : RunState) (d : string) :
  levels_loop slider ∅ sel1 = Some levels1 →
  levels_loop slider ∅ sel2 = Some levels2 →
  intervention_loop df_dict target_col levels1 year_range initial_state sel1 = Some st1 →
  intervention_loop df_dict target_col levels2 year_range initial_state sel2 = Some st2 →
  d ∈ sel1 → d ∈ sel2 →
  column (results_df st1) (col_baseline d) = column (results_df st2) (col_baseline d)
  ∧ column (results_df st1) (col_intervention d)
    = column (results_df st2) (col_intervention d)
  ∧ column (results_df st1) (col_change d) = column (results_df st2) (col_change d).
Proof.
  intros Hlv1 Hlv2 Hloop1 Hloop2 Hd1 Hd2.
  destruct (decide (usable df_dict target_col d)) as [[beta Hbeta]|Hu].
  - assert (∃ key, subscript INTERVENTION_OPTIONS d = Some key) as [key Hkey].
    { unfold selected_column in Hbeta.
      destruct (subscript INTERVENTION_OPTIONS d) as [key|]; [by exists key|done]. }
    pose proof (levels_loop_own_slider slider sel1 levels1 d key Hlv1 Hd1 Hkey) as Hown1.
    pose proof (levels_loop_own_slider slider sel2 levels2 d key Hlv2 Hd2 Hkey) as Hown2.
    assert (if decide (key = "pcogstate")
            then is_Some (levels1 !! "pcogstate_1") ∧ is_Some (levels1 !! "pcogstate_2")
            else is_Some (levels1 !! key)) as Hcov.
    { unfold level_of_slider in Hown1. case_decide; [destruct Hown1|]; eauto. }
    destruct (predict_series_total key levels1 beta year_range Hcov) as [outs Houts1].
    assert (Forall2 (λ year o, Spec.predict key levels2 beta year = Some o)
              year_range outs) as Houts2.
    { eapply Forall2_impl; [exact Houts1|]. intros year o Ho. simpl in *.
      by rewrite <-(predict_levels_agree key levels1 levels2 beta slider d year). }
    destruct (intervention_loop_columns_hold df_dict target_col levels1 year_range
                sel1 d key beta outs Hkey Hbeta Houts1 _ _ Hloop1) as (B1 & I1 & C1);
      [by left|].
    destruct (intervention_loop_columns_hold df_dict target_col levels2 year_range
                sel2 d key beta outs Hkey Hbeta Houts2 _ _ Hloop2) as (B2 & I2 & C2);
      [by left|].
    by rewrite B1, B2, I1, I2, C1, C2.
  - destruct (intervention_loop_no_columns df_dict target_col levels1 year_range
                sel1 d Hu _ _ Hloop1) as (B1 & I1 & C1); [done|].
    destruct (intervention_loop_no_columns df_dict target_col levels2 year_range
                sel2 d Hu _ _ Hloop2) as (B2 & I2 & C2); [done|].
    by rewrite B1, B2, I1, I2, C1, C2.
Qed.

Lemma series_independent_of_selection_witness :
  ∃ levels1 levels2 st1 st2,
    levels_loop slider_default ∅ ["Diabetes Incidence Reduction"] = Some levels1
    ∧ levels_loop slider_default ∅
        ["Hypertension Incidence Reduction"; "Diabetes Incidence Reduction"] = Some levels2
    ∧ intervention_loop df_dict_P2 "p_diabe_all" levels1 [2026; 2028] initial_state
        ["Diabetes Incidence Reduction"] = Some st1
    ∧ intervention_loop df_dict_P2 "p_diabe_all" levels2 [2026; 2028] initial_state
        ["Hypertension Incidence Reduction"; "Diabetes Incidence Reduction"] = Some st2
    ∧ column (results_df st1) (col_baseline "Diabetes Incidence Reduction")
      = column (results_df st2) (col_baseline "Diabetes Incidence Reduction")
    ∧ column (results_df st1) (col_intervention "Diabetes Incidence Reduction")
      = column (results_df st2) (col_intervention "Diabetes Incidence Reduction")
    ∧ column (results_df st1) (col_change "Diabetes Incidence Reduction")
      = column (results_df st2) (col_change "Diabetes Incidence Reduction").
Proof.
  eexists _, _, _, _.
  split; [vm_compute; reflexivity|]. split; [vm_compute; reflexivity|].
  split; [vm_compute; reflexivity|]. split; [vm_compute; reflexivity|].
  eapply (series_independent_of_selection df_dict_P2 slider_default "p_diabe_all"
            [2026; 2028] ["Diabetes Incidence Reduction"]
            ["Hypertension Incidence Reduction"; "Diabetes Incidence Reduction"]
            _ _ _ _ "Diabetes Incidence Reduction");
    try (vm_compute; reflexivity);
    apply (bool_decide_unpack _); vm_compute; exact I.
Defined.

(** ** Row names of different years *)

Lemma string_app_cons (c : ascii) (s t : string) :
  String c s +:+ t = String c (s +:+ t).
Proof. reflexivity. Qed.

Lemma string_length_app (s t : string) :
  String.length (s +:+ t) = (String.length s + String.length t)%nat.
Proof.
  induction s as [|c s IH]; [done|].
  rewrite string_app_cons. cbn [String.length]. by rewrite IH.
Qed.

Lemma string_app_assoc (s t u : string) : s +:+ (t +:+ u) = (s +:+ t) +:+ u.
Proof.
  induction s as [|c s IH]; [done|]. rewrite !string_app_cons. by rewrite IH.
Qed.

Lemma string_app_inj_suffix (s1 s2 t1 t2 : string) :
  String.length t1 = String.length t2 →
  s1 +:+ t1 = s2 +:+ t2 →
  s1 = s2 ∧ t1 = t2.
Proof.
  intros Hlen. revert s2. induction s1 as [|c s1 IH]; intros [|c' s2];
    rewrite ?string_app_cons.
  - done.
  - intros E. change ("" +:+ t1) with t1 in E. subst t1.
    cbn [String.length] in Hlen. rewrite string_length_app in Hlen. lia.
  - intros E. change ("" +:+ t2) with t2 in E. subst t2.
    cbn [String.length] in Hlen. rewrite string_length_app in Hlen. lia.
  - intros [= -> H]. destruct (IH _ H) as [-> ->]. done.
Qed.

Lemma string_app_nonempty (s t : string) : t ≠ "" → s +:+ t ≠ "".
Proof.
  intros Ht E. apply (f_equal String.length) in E.
  rewrite string_length_app in E. destruct t; [done|]. cbn [String.length] in E. lia.
Qed.

(** Two row names with suffixes of the same length differ when the
    suffixes differ or the prefixes differ. *)
Lemma string_app_neq (s1 s2 t1 t2 : string) :
  String.length t1 = String.length t2 →
  s1 ≠ s2 ∨ t1 ≠ t2 →
  s1 +:+ t1 ≠ s2 +:+ t2.
Proof.
  intros Hlen Hne E. destruct (string_app_inj_suffix _ _ _ _ Hlen E). tauto.
Qed.

Lemma last_char_neq (s t : string) : last_char s ≠ last_char t → s ≠ t.
Proof. by intros H ->. Qed.

Section year_rows.
Context (Y Y0 : Z) (HY : Y ≠ Y0).

Lemma pretty_neq : pretty Y ≠ pretty Y0.
Proof. by intros E%(inj pretty). Qed.

(** The four row names of offset [Y] are none of the eight row names an
    evaluation at offset [Y0] reads. *)
Lemma year_rows_not_read (k : string) :
  k = fkey_year Y ∨ k = fkey_year_iv1 Y ∨ k = fkey_year_iv2 Y
  ∨ k = fkey_year_iv1_iv2 Y →
  k ≠ "_cons" ∧ k ≠ fkey_year Y0
  ∧ k ≠ "ivparm1" ∧ k ≠ fkey_year_iv1 Y0
  ∧ k ≠ "ivparm2" ∧ k ≠ fkey_year_iv2 Y0
  ∧ k ≠ "c.ivparm1#c.ivparm2" ∧ k ≠ fkey_year_iv1_iv2 Y0.
Proof.
  pose proof pretty_neq as Hp.
  unfold fkey_year, fkey_year_iv1, fkey_year_iv2, fkey_year_iv1_iv2.
  intros [-> | [-> | [-> | ->]]]; repeat split;
    try (apply last_char_neq; rewrite ?last_char_app by done; discriminate);
    try (apply string_app_neq; [reflexivity|by left]).
  - intros E. change ".year_inc#c.ivparm1" with (".year_inc#c." +:+ "ivparm1") in E.
    rewrite string_app_assoc in E.
    apply (string_app_inj_suffix _ "" _ "ivparm1") in E as [E _]; [|done].
    by apply string_app_nonempty in E.
  - intros E. change ".year_inc#c.ivparm2" with (".year_inc#c." +:+ "ivparm2") in E.
    rewrite string_app_assoc in E.
    apply (string_app_inj_suffix _ "" _ "ivparm2") in E as [E _]; [|done].
    by apply string_app_nonempty in E.
  - intros E.
    by apply (string_app_inj_suffix _ "" _ "c.ivparm1#c.ivparm2") in E as [_ E].
  - intros E.
    change ".year_inc#c.ivparm1#c.ivparm2"
      with (".year_inc#" +:+ "c.ivparm1#c.ivparm2") in E.
    rewrite (string_app_assoc (pretty Y0)) in E.
    by apply string_app_inj_suffix in E as [_ E].
  - intros E.
    change ".year_inc#c.ivparm1#c.ivparm2"
      with (".year_inc#c.ivparm1#c." +:+ "ivparm2") in E.
    rewrite string_app_assoc in E.
    apply (string_app_inj_suffix _ "" _ "ivparm2") in E as [E _]; [|done].
    by apply string_app_nonempty in E.
  - intros E.
    change ".year_inc#c.ivparm1#c.ivparm2"
      with (".year_inc#" +:+ "c.ivparm1#c.ivparm2") in E.
    rewrite (string_app_assoc (pretty Y)) in E.
    by apply string_app_inj_suffix in E as [_ E].
  - intros E.
    change ".year_inc#c.ivparm1#c.ivparm2"
      with (".year_inc#" +:+ "c.ivparm1#c.ivparm2") in E.
    rewrite string_app_assoc in E.
    apply (string_app_inj_suffix _ "" _ "c.ivparm1#c.ivparm2") in E as [E _]; [|done].
    by apply string_app_nonempty in E.
Qed.

End year_rows.

(** X14: The evaluation of a year reads no row of another year: setting or
    removing any of the four rows of a different year offset leaves the
    year's result unchanged, in both branches. *)
Theorem other_years_rows_not_read (key : string) (levels beta : gmap string float)
    (fr : Locals) (year Y : Z) (k : string) (v : float) :
  Y ≠ year - 2024 →
  k = fkey_year Y ∨ k = fkey_year_iv1 Y ∨ k = fkey_year_iv2 Y
  ∨ k = fkey_year_iv1_iv2 Y →
  year_body key levels (<[k := v]> beta) fr year = year_body key levels beta fr year
  ∧ year_body key levels (delete k beta) fr year = year_body key levels beta fr year.
Proof.
  intros HY Hk.
  destruct (year_rows_not_read Y (year - 2024) HY k Hk)
    as (H1 & H2 & H3 & H4 & H5 & H6 & H7 & H8).
  unfold year_body, Series_get. cbv zeta.
  by rewrite !lookup_insert_ne, !lookup_delete_ne.
Qed.

Lemma other_years_rows_not_read_witness :
  year_body "pcogstate" levels_one (<[fkey_year_iv2 4 := 9%float]> beta_P4) unbound 2026
  = year_body "pcogstate" levels_one beta_P4 unbound 2026
  ∧ year_body "pcogstate" levels_one (delete (fkey_year_iv2 4) beta_P4) unbound 2026
    = year_body "pcogstate" levels_one beta_P4 unbound 2026.
Proof.
  apply (other_years_rows_not_read "pcogstate" levels_one beta_P4 unbound 2026 4
           (fkey_year_iv2 4) 9%float).
  - discriminate.
  - right. right. left. reflexivity.
Defined.

(** ** The two charts *)

Lemma y_shown_length (selected_outcome : string) (y_val : list float) :
  length (y_shown selected_outcome y_val) = length y_val.
Proof. unfold y_shown. destruct (has_percent _); [apply length_fmap|done]. Qed.

Lemma color_in_colors (i : nat) : nth (i mod length colors) colors "" ∈ colors.
Proof.
  apply list_elem_of_In, nth_In. apply Nat.mod_upper_bound. done.
Qed.

Lemma filter_agree {A} (P Q : A → Prop) `{!∀ a, Decision (P a)} `{!∀ a, Decision (Q a)}
    (l : list A) :
  (∀ a, a ∈ l → P a ↔ Q a) → filter P l = filter Q l.
Proof.
  induction l as [|a l IH]; intros Hpq; [done|].
  assert (filter P l = filter Q l) as IH'.
  { apply IH. intros b Hb. apply Hpq. by right. }
  assert (P a ↔ Q a) as Ha by (apply Hpq; by left).
  destruct (decide (P a)) as [HP|HP].
  - rewrite !filter_cons_True by tauto. by rewrite IH'.
  - rewrite !filter_cons_False by tauto. done.
Qed.

Section charts.
Context (df : list (string * list float)) (year_range : list Z).
Context (selected_outcome : string).

Lemma fig_diff_loop_names (sel : list string) :
  ∀ acc i,
    name <$> fig_diff_loop df year_range selected_outcome acc i sel
    = (name <$> acc)
      ++ ((λ d, "<b>Change:</b> " +:+ d)
            <$> filter (λ d, is_Some (column df (col_change d))) sel).
Proof.
  induction sel as [|d sel IH]; intros acc i; cbn [fig_diff_loop].
  - by rewrite app_nil_r.
  - rewrite IH. unfold fig_diff_body.
    destruct (column df (col_change d)) as [y_val|] eqn:E.
    + rewrite filter_cons_True by (by rewrite E).
      rewrite fmap_app, fmap_cons, <-(assoc_L (++)). done.
    + rewrite filter_cons_False; [done|]. rewrite E. by intros ?%is_Some_None.
Qed.

Lemma fig_diff_loop_values (sel : list string) :
  ∀ acc i,
    y <$> fig_diff_loop df year_range selected_outcome acc i sel
    = (y <$> acc)
      ++ omap (λ d, y_shown selected_outcome <$> column df (col_change d)) sel.
Proof.
  induction sel as [|d sel IH]; intros acc i; cbn [fig_diff_loop].
  - by rewrite app_nil_r.
  - rewrite IH. unfold fig_diff_body. cbn [omap list_omap].
    destruct (column df (col_change d)) as [y_val|] eqn:E; cbn [fmap option_fmap option_map].
    + rewrite fmap_app, <-(assoc_L (++)). done.
    + done.
Qed.

Lemma fig_diff_loop_traces (sel : list string) :
  (∀ d y_val, d ∈ sel → column df (col_change d) = Some y_val →
     length y_val = length year_range) →
  ∀ acc i,
    Forall (trace_ok year_range) acc →
    Forall (trace_ok year_range) (fig_diff_loop df year_range selected_outcome acc i sel).
Proof.
  induction sel as [|d sel IH]; intros Hlen acc i Hacc; cbn [fig_diff_loop]; [done|].
  apply IH; [intros d' y_val Hd'; apply Hlen; by right|].
  unfold fig_diff_body. destruct (column df (col_change d)) as [y_val|] eqn:E; [|done].
  apply Forall_app. split; [done|]. constructor; [|done].
  split; [done|]. split; [|apply color_in_colors].
  cbn [y]. rewrite y_shown_length. apply (Hlen d); [by left|done].
Qed.

Context (str_float : float → string) (levels : gmap string float).

Lemma fig_loop_traces (sel : list string) :
  (∀ d y_val, d ∈ sel →
     column df (col_baseline d) = Some y_val ∨ column df (col_intervention d) = Some y_val →
     length y_val = length year_range) →
  ∀ acc i fig,
    fig_loop str_float levels df year_range selected_outcome acc i sel = Some fig →
    Forall (trace_ok year_range) acc →
    Forall (trace_ok year_range) fig.
Proof.
  induction sel as [|d sel IH]; intros Hlen acc i fig; cbn [fig_loop].
  - by intros [= <-].
  - destruct (fig_body str_float levels df year_range selected_outcome acc i d)
      as [fig1|] eqn:E1; [|done].
    cbn [mbind option_bind]. intros Hrest Hacc.
    apply (IH (λ d' y_val Hd', Hlen d' y_val (list_elem_of_further _ _ _ Hd'))
              _ _ _ Hrest).
    unfold fig_body in E1.
    destruct (subscript INTERVENTION_OPTIONS d) as [key|]; [|done].
    cbn [mbind option_bind] in E1.
    destruct (if decide (key = "pcogstate") then _ else _) as [inter_label|]; [|done].
    cbn [mbind option_bind] in E1. injection E1 as <-.
    assert (Forall (trace_ok year_range)
      match column df (col_baseline d) with
      | Some y_val =>
          acc ++ [ {| x := year_range; y := y_shown selected_outcome y_val;
                      mode := "lines"; name := "<b>Baseline:</b> " +:+ d;
                      line_color := nth (i mod length colors) colors "";
                      line_dash := true |} ]
      | None => acc
      end) as H1.
    { destruct (column df (col_baseline d)) as [y_val|] eqn:E; [|done].
      apply Forall_app. split; [done|]. constructor; [|done].
      split; [done|]. split; [|apply color_in_colors].
      cbn [y]. rewrite y_shown_length. apply (Hlen d); [by left|by left]. }
    destruct (column df (col_intervention d)) as [y_val|] eqn:E; [|done].
    apply Forall_app. split; [done|]. constructor; [|done].
    split; [done|]. split; [|apply color_in_colors].
    cbn [y]. rewrite y_shown_length. apply (Hlen d); [by left|by right].
Qed.

Lemma fig_loop_length (sel : list string) (P : string → Prop)
    `{!∀ d, Decision (P d)} :
  (∀ d, d ∈ sel →
     (is_Some (column df (col_baseline d)) ↔ P d)
     ∧ (is_Some (column df (col_intervention d)) ↔ P d)) →
  ∀ acc i fig,
    fig_loop str_float levels df year_range selected_outcome acc i sel = Some fig →
    length fig = (length acc + 2 * length (filter P sel))%nat.
Proof.
  induction sel as [|d sel IH]; intros Hcols acc i fig; cbn [fig_loop].
  - intros [= <-]. rewrite filter_nil. simpl. lia.
  - destruct (fig_body str_float levels df year_range selected_outcome acc i d)
      as [fig1|] eqn:E1; [|done].
    cbn [mbind option_bind]. intros Hrest.
    rewrite (IH (λ d' Hd', Hcols d' (list_elem_of_further _ _ _ Hd')) _ _ _ Hrest).
    unfold fig_body in E1.
    destruct (subscript INTERVENTION_OPTIONS d) as [key|]; [|done].
    cbn [mbind option_bind] in E1.
    destruct (if decide (key = "pcogstate") then _ else _) as [inter_label|]; [|done].
    cbn [mbind option_bind] in E1. injection E1 as <-.
    destruct (Hcols d) as [Hb Hi]; [by left|].
    destruct (decide (P d)) as [HP|HP].
    + rewrite filter_cons_True by done.
      apply Hb in HP as Hb'. apply Hi in HP as Hi'.
      destruct Hb' as [vb ->], Hi' as [vi ->].
      rewrite !length_app. simpl. lia.
    + rewrite filter_cons_False by done.
      destruct (column df (col_baseline d)) eqn:Eb;
        [exfalso; apply HP, Hb; by eexists|].
      destruct (column df (col_intervention d)) eqn:Ei;
        [exfalso; apply HP, Hi; by eexists|].
      lia.
Qed.

End charts.

Lemma final_columns (df_dict : gmap string (gmap string (gmap string float)))
    (target_col : string) (levels : gmap string float) (year_range : list Z)
    (sel : list string) (st : RunState) (d : string) :
  Forall (levels_cover levels) sel →
  intervention_loop df_dict target_col levels year_range initial_state sel = Some st →
  d ∈ sel →
  (usable df_dict target_col d →
     ∃ outs, length outs = length year_range ∧ columns_hold (results_df st) d outs)
  ∧ (¬ usable df_dict target_col d → no_columns (results_df st) d).
Proof.
  intros Hcov Hloop Hd. split.
  - intros [beta Hbeta].
    eapply Forall_forall in Hcov as (key & Hkey & Hlev); [|done].
    destruct (predict_series_total key levels beta year_range Hlev) as [outs Houts].
    exists outs. split; [symmetry; by eapply Forall2_length|].
    eapply intervention_loop_columns_hold; eauto.
  - intros Hu. by eapply intervention_loop_no_columns.
Qed.

Lemma run_unfold (str_float : float → string)
    (df_dict : gmap string (gmap string (gmap string float)))
    (slider : string → float)
    (selected_outcome selected_subgroup : string) (sel : list string)
    (start_year end_year : Z) (outcome_code subgroup_code : string)
    (levels : gmap string float) (st : RunState) :
  subscript OUTCOME_OPTIONS selected_outcome = Some outcome_code →
  subscript SUBGROUP_OPTIONS selected_subgroup = Some subgroup_code →
  levels_loop slider ∅ sel = Some levels →
  intervention_loop df_dict (outcome_code +:+ "_" +:+ subgroup_code) levels
    (range2 start_year (end_year + 1)) initial_state sel = Some st →
  run str_float df_dict slider selected_outcome selected_subgroup sel start_year end_year
  = if negb (valid_plot st) then Some (Stopped (page st))
    else
      fig ← fig_loop str_float levels (results_df st) (range2 start_year (end_year + 1))
              selected_outcome [] 0 sel;
      Some (Completed (page st ++
              [ st_subheader ("Projected " +:+ selected_outcome);
                st_plotly_chart fig;
                st_subheader "Change from Baseline";
                st_plotly_chart
                  (fig_diff_loop (results_df st) (range2 start_year (end_year + 1))
                     selected_outcome [] 0 sel) ])).
Proof.
  intros Hout Hsub Hlev Hloop. unfold run.
  rewrite Hlev, Hout, Hsub. cbn [mbind option_bind]. rewrite Hloop. done.
Qed.

(** X15: When at least one selected intervention is usable the run ends with
    the two charts.  The change chart has one trace for each usable
    selected intervention, in selection order, named after it and
    plotting its change column (times 100 for a percentage outcome); the
    projection chart has two traces for each; every trace is plotted over
    the years of the run with one value per year. *)
Theorem charts_show_the_usable_interventions
    (str_float : float → string)
    (df_dict : gmap string (gmap string (gmap string float)))
    (slider : string → float)
    (selected_outcome selected_subgroup : string) (sel : list string)
    (start_year end_year : Z) (outcome_code subgroup_code : string) :
  subscript OUTCOME_OPTIONS selected_outcome = Some outcome_code →
  subscript SUBGROUP_OPTIONS selected_subgroup = Some subgroup_code →
  Forall (λ d, is_Some (subscript INTERVENTION_OPTIONS d)) sel →
  Exists (usable df_dict (outcome_code +:+ "_" +:+ subgroup_code)) sel →
  let target_col := outcome_code +:+ "_" +:+ subgroup_code in
  let year_range := range2 start_year (end_year + 1) in
  ∃ (levels : gmap string float) (st : RunState) (fig fig_diff : list Scatter),
    levels_loop slider ∅ sel = Some levels
    ∧ intervention_loop df_dict target_col levels year_range initial_state sel = Some st
    ∧ run str_float df_dict slider selected_outcome selected_subgroup sel
        start_year end_year
      = Some (Completed (page st ++
                [ st_subheader ("Projected " +:+ selected_outcome);
                  st_plotly_chart fig;
                  st_subheader "Change from Baseline";
                  st_plotly_chart fig_diff ]))
    ∧ name <$> fig_diff
      = (λ d, "<b>Change:</b> " +:+ d) <$> filter (usable df_dict target_col) sel
    ∧ y <$> fig_diff
      = omap (λ d, y_shown selected_outcome <$> column (results_df st) (col_change d)) sel
    ∧ length fig = (2 * length (filter (usable df_dict target_col) sel))%nat
    ∧ Forall (trace_ok year_range) (fig ++ fig_diff).
Proof.
  intros Hout Hsub Hsel Hex target_col year_range.
  destruct (levels_loop_cover slider sel Hsel ∅) as (levels & Hlev & _ & Hcov).
  destruct (intervention_loop_total df_dict target_col levels year_range sel Hcov
              initial_state) as [st Hloop].
  pose proof (intervention_loop_valid_plot _ _ _ _ _ _ _ Hloop) as Hvalid.
  simpl in Hvalid. rewrite bool_decide_eq_true_2 in Hvalid by done.
  destruct (fig_loop_total str_float levels (results_df st) year_range
              selected_outcome sel Hcov [] 0%nat) as [fig Hfig].
  pose proof (final_columns df_dict target_col levels year_range sel st) as Hcols.
  exists levels, st, fig,
    (fig_diff_loop (results_df st) year_range selected_outcome [] 0 sel).
  split; [done|]. split; [done|]. split.
  { rewrite (run_unfold str_float df_dict slider selected_outcome selected_subgroup
               sel start_year end_year outcome_code subgroup_code levels st)
      by done.
    rewrite Hvalid. cbn [negb]. fold year_range. rewrite Hfig. done. }
  split.
  { rewrite fig_diff_loop_names. cbn [fmap list_fmap app]. f_equal.
    apply filter_agree. intros d Hd.
    destruct (Hcols d Hcov Hloop Hd) as [Hyes Hno]. split.
    - intros Hsome. destruct (decide (usable df_dict target_col d)) as [|Hu]; [done|].
      destruct (Hno Hu) as (_ & _ & Hc). rewrite Hc in Hsome.
      by apply is_Some_None in Hsome.
    - intros Hu. destruct (Hyes Hu) as (outs & _ & _ & _ & ->). by eexists. }
  split; [by rewrite fig_diff_loop_values|]. split.
  { apply (fig_loop_length (results_df st) year_range selected_outcome str_float
             levels sel (usable df_dict target_col)) in Hfig; [done|].
    intros d Hd. destruct (Hcols d Hcov Hloop Hd) as [Hyes Hno].
    split; (split; [intros Hsome|intros Hu]).
    - destruct (decide (usable df_dict target_col d)) as [|Hu]; [done|].
      destruct (Hno Hu) as (Hb & _ & _). rewrite Hb in Hsome.
      by apply is_Some_None in Hsome.
    - destruct (Hyes Hu) as (outs & _ & -> & _). by eexists.
    - destruct (decide (usable df_dict target_col d)) as [|Hu]; [done|].
      destruct (Hno Hu) as (_ & Hi & _). rewrite Hi in Hsome.
      by apply is_Some_None in Hsome.
    - destruct (Hyes Hu) as (outs & _ & _ & -> & _). by eexists. }
  assert (∀ d y_val, d ∈ sel →
            column (results_df st) (col_baseline d) = Some y_val
            ∨ column (results_df st) (col_intervention d) = Some y_val
            ∨ column (results_df st) (col_change d) = Some y_val →
            length y_val = length year_range) as Hlen.
  { intros d y_val Hd Hy. destruct (Hcols d Hcov Hloop Hd) as [Hyes Hno].
    destruct (decide (usable df_dict target_col d)) as [Hu|Hu].
    - destruct (Hyes Hu) as (outs & Hlen & Hb & Hi & Hc).
      destruct Hy as [Hy|[Hy|Hy]].
      + rewrite Hb in Hy. injection Hy as <-. by rewrite length_fmap.
      + rewrite Hi in Hy. injection Hy as <-. by rewrite length_fmap.
      + rewrite Hc in Hy. injection Hy as <-.
        rewrite diff_values_outs. by rewrite length_fmap.
    - destruct (Hno Hu) as (Hb & Hi & Hc). rewrite Hb, Hi, Hc in Hy.
      by destruct Hy as [?|[?|?]]. }
  apply Forall_app. split.
  - eapply (fig_loop_traces (results_df st) year_range selected_outcome str_float
              levels sel); [|exact Hfig|done].
    intros d y_val Hd [Hy|Hy]; apply (Hlen d); auto.
  - apply fig_diff_loop_traces; [|done].
    intros d y_val Hd Hy. apply (Hlen d); auto.
Qed.

Lemma charts_show_the_usable_interventions_witness :
  let sel := ["Hypertension Incidence Reduction"; "Diabetes Incidence Reduction"] in
  let target_col := "p_diabe" +:+ "_" +:+ "all" in
  let year_range := range2 2026 (2030 + 1) in
  ∃ (levels : gmap string float) (st : RunState) (fig fig_diff : list Scatter),
    levels_loop slider_default ∅ sel = Some levels
    ∧ intervention_loop df_dict_P2 target_col levels year_range initial_state sel = Some st
    ∧ run (λ _, "0.85") df_dict_P2 slider_default "Diabetes Prevalence (%)" "All" sel
        2026 2030
      = Some (Completed (page st ++
                [ st_subheader ("Projected " +:+ "Diabetes Prevalence (%)");
                  st_plotly_chart fig;
                  st_subheader "Change from Baseline";
                  st_plotly_chart fig_diff ]))
    ∧ name <$> fig_diff
      = (λ d, "<b>Change:</b> " +:+ d) <$> filter (usable df_dict_P2 target_col) sel
    ∧ y <$> fig_diff
      = omap (λ d, y_shown "Diabetes Prevalence (%)"
                     <$> column (results_df st) (col_change d)) sel
    ∧ length fig = (2 * length (filter (usable df_dict_P2 target_col) sel))%nat
    ∧ Forall (trace_ok year_range) (fig ++ fig_diff).
Proof.
  apply (charts_show_the_usable_interventions (λ _, "0.85") df_dict_P2 slider_default
           "Diabetes Prevalence (%)" "All"
           ["Hypertension Incidence Reduction"; "Diabetes Incidence Reduction"]
           2026 2030 "p_diabe" "all").
  - reflexivity.
  - reflexivity.
  - apply (bool_decide_unpack _). vm_compute. exact I.
  - apply (bool_decide_unpack _). vm_compute. exact I.
Defined.
